(** * Spendr API server: the orchestration core of server/server.js

    A shallow embedding of the Express handlers of the API server
    (metrics helpers, /dashboard/summary, /budgets/untouchable,
    /credit/simulate and /insurance/assess) and the properties of their
    failure handling.

    Conventions of the embedding.
    - A JavaScript value is a [JsVal]; numbers are exact rationals ([Q]),
      the idealisation of IEEE doubles under which the arithmetic of the
      handlers (sums, a division by 3, [Math.round], [Math.abs]) is read.
    - An instant is its epoch time in milliseconds ([Z]).
    - An [await]ed call is a step of the handler monad [M]: it logs what the
      handler does to the outside ([Event]) and either yields a value or
      throws.  The outside (database, upstream AI service, clock, fixture
      file) is a [World]. *)

From Stdlib Require Import ZArith QArith Qround Qabs Lia.
From stdpp Require Import gmap strings list pretty.

#[local] Set Warnings "-register-all".

Local Open Scope string_scope.

(** ** JavaScript values *)

Inductive JsVal : Type :=
| JUndefined
| JNull
| JBool (b : bool)
| JNum (q : Q)
| JStr (s : string)
| JArr (items : list JsVal)
| JObj (fields : list (string * JsVal)).

(** An error object: its constructor name and its message. *)
Record JsError := { err_name : string; err_message : string }.

Definition TypeError (msg : string) : JsError :=
  {| err_name := "TypeError"; err_message := msg |}.

(** [String(err?.message || err)]: the message, or, when it is empty,
    what [Error.prototype.toString] gives for an empty message. *)
Definition error_detail (e : JsError) : string :=
  if String.eqb (err_message e) "" then err_name e else err_message e.

(** The outcome of evaluating an expression or of a settled promise. *)
Inductive Outcome (A : Type) : Type :=
| Fulfilled (value : A)
| Rejected (reason : JsError).
Arguments Fulfilled {A} value.
Arguments Rejected {A} reason.

(** First binding of a key in a field list. *)
Fixpoint assoc (k : string) (fs : list (string * JsVal)) : option JsVal :=
  match fs with
  | [] => None
  | (k', v) :: fs' => if String.eqb k k' then Some v else assoc k fs'
  end.

(** [o[k] = v] on the field list of an object literal: an existing key keeps
    its position and takes the new value, a new key goes last. *)
Fixpoint obj_set (k : string) (v : JsVal) (fs : list (string * JsVal))
  : list (string * JsVal) :=
  match fs with
  | [] => [(k, v)]
  | (k', v') :: fs' =>
      if String.eqb k k' then (k, v) :: fs' else (k', v') :: obj_set k v fs'
  end.

Definition nullish (v : JsVal) : bool :=
  match v with JUndefined | JNull => true | _ => false end.

(** JavaScript truthiness (there is no NaN among the rationals). *)
Definition truthy (v : JsVal) : bool :=
  match v with
  | JUndefined | JNull => false
  | JBool b => b
  | JNum q => negb (Qeq_bool q 0)
  | JStr s => negb (String.eqb s "")
  | JArr _ | JObj _ => true
  end.

(** [v.k] for a named property [k]: a TypeError on [undefined] and [null];
    [length] of arrays and strings; own fields of objects; [undefined]
    otherwise. *)
Definition js_get (v : JsVal) (k : string) : Outcome JsVal :=
  match v with
  | JUndefined =>
      Rejected (TypeError ("Cannot read properties of undefined (reading '" ++ k ++ "')"))
  | JNull =>
      Rejected (TypeError ("Cannot read properties of null (reading '" ++ k ++ "')"))
  | JObj fs => Fulfilled (default JUndefined (assoc k fs))
  | JArr items =>
      Fulfilled (if String.eqb k "length"
                 then JNum (inject_Z (Z.of_nat (length items)))
                 else JUndefined)
  | JStr s =>
      Fulfilled (if String.eqb k "length"
                 then JNum (inject_Z (Z.of_nat (String.length s)))
                 else JUndefined)
  | JBool _ | JNum _ => Fulfilled JUndefined
  end.

(** [v?.k]. *)
Definition js_get_opt (v : JsVal) (k : string) : JsVal :=
  match js_get v k with
  | Fulfilled x => x
  | Rejected _ => JUndefined
  end.

(** [v[0]]. *)
Definition js_first (v : JsVal) : Outcome JsVal :=
  match v with
  | JUndefined =>
      Rejected (TypeError "Cannot read properties of undefined (reading '0')")
  | JNull =>
      Rejected (TypeError "Cannot read properties of null (reading '0')")
  | JArr items => Fulfilled (default JUndefined (head items))
  | JStr s =>
      Fulfilled (match s with
                 | EmptyString => JUndefined
                 | String c _ => JStr (String c EmptyString)
                 end)
  | JObj fs => Fulfilled (default JUndefined (assoc "0" fs))
  | JBool _ | JNum _ => Fulfilled JUndefined
  end.

(** [a || b]. *)
Definition js_or (a b : JsVal) : JsVal := if truthy a then a else b.

Definition is_array (v : JsVal) : bool :=
  match v with JArr _ => true | _ => false end.

(** Decimal index keys of array elements and string characters. *)
Definition index_key (i : nat) : string := pretty i.

Fixpoint string_chars (s : string) : list JsVal :=
  match s with
  | EmptyString => []
  | String c s' => JStr (String c EmptyString) :: string_chars s'
  end.

(** The own enumerable properties copied by [{...v}]. *)
Definition js_spread (v : JsVal) : list (string * JsVal) :=
  match v with
  | JObj fs => fs
  | JArr items => imap (fun i x => (index_key i, x)) items
  | JStr s => imap (fun i x => (index_key i, x)) (string_chars s)
  | JUndefined | JNull | JBool _ | JNum _ => []
  end.

(** What a JSON client reads back from [JSON.stringify v]: object fields
    whose value is [undefined] are left out, [undefined] array elements
    become [null]. *)
Fixpoint json_wire (v : JsVal) : JsVal :=
  match v with
  | JArr items =>
      JArr (map (fun x => match x with
                          | JUndefined => JNull
                          | _ => json_wire x
                          end) items)
  | JObj fs =>
      JObj ((fix fields (fs : list (string * JsVal)) : list (string * JsVal) :=
               match fs with
               | [] => []
               | (k, JUndefined) :: fs' => fields fs'
               | (k, x) :: fs' => (k, json_wire x) :: fields fs'
               end) fs)
  | _ => v
  end.

(** The fields of an object as [json_wire] leaves them. *)
Definition wire_fields : list (string * JsVal) -> list (string * JsVal) :=
  fix fields (fs : list (string * JsVal)) : list (string * JsVal) :=
    match fs with
    | [] => []
    | (k, JUndefined) :: fs' => fields fs'
    | (k, x) :: fs' => (k, json_wire x) :: fields fs'
    end.

(** Whether a JSON document is an object with the key [k]. *)
Definition has_key (k : string) (v : JsVal) : bool :=
  match v with
  | JObj fs => bool_decide (is_Some (assoc k fs))
  | _ => false
  end.

(** The value under key [k] of a JSON object. *)
Definition field (k : string) (v : JsVal) : option JsVal :=
  match v with
  | JObj fs => assoc k fs
  | _ => None
  end.

(** ** Transactions and the metrics helpers *)

Definition msPerDay : Z := 86400000.

(** A ledger row as the handlers read it (a Prisma Transaction row or an
    entry of the fixture file); [tx_date] is [new Date(t.date)] in epoch
    milliseconds, a valid instant as the non-null timestamp column gives,
    and [tx_amount] is [Number(t.amount)]. *)
Record Transaction := {
  tx_date : Z;
  tx_amount : Q;
  tx_merchant : option string;
  tx_category : option string;
  tx_account_type : option string;
  tx_type : option string;
  tx_isRecurring : option bool;
  tx_is_recurring : option bool
}.

(** The normalized record handed to the providers; [n_day] stands for the
    ISO calendar date [YYYY-MM-DD], as its number of days since the epoch. *)
Record NormTx := {
  n_day : Z;
  n_amount : Q;
  n_merchant : string;
  n_category : string;
  n_account_type : string;
  n_is_recurring : bool
}.

(** The two properties the metrics helpers read off an array element. *)
Class Dated (A : Type) := {
  date_of : A -> Z;      (* new Date(t.date), epoch milliseconds *)
  amount_of : A -> Q     (* Number(t.amount) *)
}.

#[export] Instance Transaction_Dated : Dated Transaction :=
  {| date_of := tx_date; amount_of := tx_amount |}.

(** [new Date("YYYY-MM-DD")] is midnight UTC of that day. *)
#[export] Instance NormTx_Dated : Dated NormTx :=
  {| date_of := fun t => (n_day t * msPerDay)%Z; amount_of := n_amount |}.

(** [from]: [now] moved back 90 days by [setDate(getDate() - 90)] (the
    same wall-clock time 90 calendar days earlier; 90 * 24 h in a zone
    without a clock change in between, such as UTC). *)
Definition window_from (now : Z) : Z := (now - 90 * msPerDay)%Z.

Definition Qlt_bool (x y : Q) : bool := negb (Qle_bool y x).

(** [Math.round]: the nearest integer, a tie going towards +infinity. *)
Definition Math_round (x : Q) : Z := Qfloor (x + (1 # 2)).

Definition monthlyIncomeArray `{Dated A} (now : Z) (tx : list A) : Z :=
  let from := window_from now in
  let pos :=
    fold_left Qplus
      (map amount_of
         (List.filter (fun t => (from <=? date_of t)%Z && Qlt_bool 0 (amount_of t)) tx))
      0%Q in
  Math_round (pos / 3).

Definition monthlyBaselineSpendArray `{Dated A} (now : Z) (tx : list A) : Z :=
  let from := window_from now in
  let neg :=
    fold_left Qplus
      (map amount_of
         (List.filter (fun t => (from <=? date_of t)%Z && Qlt_bool (amount_of t) 0) tx))
      0%Q in
  Z.abs (Math_round (neg / 3)).

(** ** The outside world and the handler monad *)

(** The upstream AI service, one constructor per endpoint, with the request
    body. *)
Inductive Call : Type :=
| DetectSubscriptions (transactions : list NormTx)   (* /ai/subscriptions/detect *)
| SpendInsights (transactions : list NormTx)         (* /ai/spend/insights *)
| SpendMovers (transactions : list NormTx)           (* /ai/spend/movers *)
| CreditRepayment (payload : JsVal)                  (* /ai/credit/repayment *)
| Narrative (payload : JsVal)                        (* /ai/narrative *)
| ExplainCredit (payload : JsVal)                    (* /ai/explain/credit *)
| UntouchableForecast (payload : JsVal)              (* /ai/untouchable/forecast *)
| InsuranceNudge (payload : JsVal).                  (* /ai/insurance/nudge *)

(** The endpoints; [Repayment] is /ai/credit/repayment, which gives the
    credit guardrails of the summary and the simulation of /credit/simulate. *)
Inductive Provider : Type :=
| Subscriptions | Spikes | Movers | Repayment | NarrativeGen
| Explainer | Forecaster | Insurance.

#[export] Instance Provider_eq_dec : EqDecision Provider.
Proof. solve_decision. Defined.

Definition provider_of (c : Call) : Provider :=
  match c with
  | DetectSubscriptions _ => Subscriptions
  | SpendInsights _ => Spikes
  | SpendMovers _ => Movers
  | CreditRepayment _ => Repayment
  | Narrative _ => NarrativeGen
  | ExplainCredit _ => Explainer
  | UntouchableForecast _ => Forecaster
  | InsuranceNudge _ => Insurance
  end.

(** The columns of an Account row the handlers read. *)
Record Account := {
  acc_balance : Q;
  acc_apr : option Q;
  acc_creditLimit : option Q
}.

(** What the handler does to the outside, in the order it does it. *)
Inductive Event : Type :=
| Issue (c : Call)                          (* axios.post(...) is called *)
| Settle (c : Call) (o : Outcome JsVal)     (* the handler resumes with the outcome *)
| ReadTransactions (userId : string)        (* prisma.transaction.findMany *)
| ReadCreditAccount (userId : string)       (* prisma.account.findFirst *)
| UpsertBudget (userId : string) (pct : JsVal). (* prisma.budget.upsert *)

Record World := {
  (** how an upstream call settles (every call is taken to settle):
      [Fulfilled data] is a 2xx response with parsed body [data]; [Rejected]
      is a timeout, a connection failure or a non-2xx status *)
  upstream : Call -> Outcome JsVal;
  (** the Transaction rows of a user, ordered by date *)
  transactions_of : string -> Outcome (list Transaction);
  (** the first Account row of type credit of a user *)
  credit_account_of : string -> Outcome (option Account);
  (** the content of data/transactions.json, read once at start-up *)
  FIXTURE_TX : list Transaction;
  (** new Date() *)
  now : Z
}.

Record Response := { status : Z; body : JsVal }.

(** The Budget table (userId to untouchablePct), the response written so
    far and the log of events. *)
Record State := {
  trace : list Event;
  budgets : gmap string Q;
  response : option Response
}.

Definition M (A : Type) : Type := State -> Outcome A * State.

Definition ret {A} (a : A) : M A := fun s => (Fulfilled a, s).

Definition bind {A B} (m : M A) (k : A -> M B) : M B :=
  fun s =>
    match m s with
    | (Fulfilled a, s') => k a s'
    | (Rejected e, s') => (Rejected e, s')
    end.

Notation "'let!' x ':=' m 'in' k" := (bind m (fun x => k))
  (at level 10, x pattern, m at level 100, k at level 200).
Notation "m1 ';;' m2" := (bind m1 (fun _ => m2))
  (at level 100, m2 at level 200, right associativity).

(** A synchronous expression that may throw. *)
Definition eval {A} (o : Outcome A) : M A := fun s => (o, s).

(** [try { m } catch (e) { h e }]; what [m] did before it threw stays done. *)
Definition try_catch {A} (m : M A) (h : JsError -> M A) : M A :=
  fun s =>
    match m s with
    | (Fulfilled a, s') => (Fulfilled a, s')
    | (Rejected e, s') => h e s'
    end.

Definition emit (e : Event) : M unit :=
  fun s => (Fulfilled tt,
            {| trace := trace s ++ [e]; budgets := budgets s; response := response s |}).

(** [res.status(code).json(v)]. *)
Definition res_status_json (code : Z) (v : JsVal) : M unit :=
  fun s => (Fulfilled tt,
            {| trace := trace s; budgets := budgets s;
               response := Some {| status := code; body := json_wire v |} |}).

(** [res.json(v)]: status 200. *)
Definition res_json (v : JsVal) : M unit := res_status_json 200 v.

(** A pending promise of an upstream call: the call, and how it settles. *)
Definition Promise : Type := Call * Outcome JsVal.

(** [axios.post(url, body)]: the request goes out. *)
Definition post (w : World) (c : Call) : M Promise :=
  emit (Issue c);; ret (c, upstream w c).

(** [await p]: resume with the response data, or throw the rejection. *)
Definition await (p : Promise) : M JsVal :=
  emit (Settle (fst p) (snd p));; eval (snd p).

(** [await Promise.allSettled([p1, p2, p3])]: resume when all three have
    settled, with their outcomes; never throws. *)
Definition allSettled3 (p1 p2 p3 : Promise)
  : M (Outcome JsVal * Outcome JsVal * Outcome JsVal) :=
  emit (Settle (fst p1) (snd p1));;
  emit (Settle (fst p2) (snd p2));;
  emit (Settle (fst p3) (snd p3));;
  ret (snd p1, snd p2, snd p3).

Definition dbTransactions (w : World) (userId : string) : M (list Transaction) :=
  emit (ReadTransactions userId);; eval (transactions_of w userId).

Definition findCreditAccount (w : World) (userId : string) : M (option Account) :=
  emit (ReadCreditAccount userId);; eval (credit_account_of w userId).

(** [prisma.budget.upsert] on the Budget table, whose untouchablePct column
    is a required double: a value that is not a number is refused by the
    client before any row is written. *)
Definition upsertBudget (userId : string) (pct : JsVal) : M unit :=
  emit (UpsertBudget userId pct);;
  fun s =>
    match pct with
    | JNum q =>
        (Fulfilled tt,
         {| trace := trace s; budgets := <[userId := q]> (budgets s);
            response := response s |})
    | _ =>
        (Rejected {| err_name := "PrismaClientValidationError";
                     err_message := "Argument untouchablePct is missing or invalid." |}, s)
    end.

Definition initial (db : gmap string Q) : State :=
  {| trace := []; budgets := db; response := None |}.

(** ** The handlers *)

Record Request := {
  session_userId : option string;   (* req.session.userId *)
  req_body : JsVal                  (* req.body *)
}.

(** [req.session.userId] as the handlers use it once [requireAuth] let the
    request through. *)
Definition userId_of (req : Request) : string := default "" (session_userId req).

(** Whether a middleware handed over with [next()] or ended the request. *)
Inductive Step : Type := Next | Done.

Definition Handler : Type := World -> Request -> M Step.

Definition num (z : Z) : JsVal := JNum (inject_Z z).

Definition requireAuth : Handler := fun _ req =>
  if bool_decide (userId_of req = "")
  then res_status_json 401 (JObj [("error", JStr "auth")]);; ret Done
  else ret Next.

(** The normalization of step 2 of the summary; the ISO date cut to ten
    characters is the UTC day of the instant. *)
Definition normalize (t : Transaction) : NormTx :=
  {| n_day := (tx_date t / msPerDay)%Z;
     n_amount := tx_amount t;
     n_merchant :=
       match tx_merchant t with
       | Some m => if String.eqb m "" then "Unknown" else m
       | None => "Unknown"
       end;
     n_category :=
       match tx_category t with
       | Some c => if String.eqb c "" then "other" else c
       | None => "other"
       end;
     n_account_type :=
       match tx_account_type t with
       | Some a => if String.eqb a "" then
                     match tx_type t with
                     | Some a' => if String.eqb a' "" then "checking" else a'
                     | None => "checking"
                     end
                   else a
       | None =>
           match tx_type t with
           | Some a' => if String.eqb a' "" then "checking" else a'
           | None => "checking"
           end
       end;
     n_is_recurring :=
       match tx_isRecurring t with
       | Some b => b
       | None => default false (tx_is_recurring t)
       end |}.

(** [txns.length ? txns : FIXTURE_TX]. *)
Definition orFixture (w : World) (txns : list Transaction) : list Transaction :=
  match txns with
  | [] => FIXTURE_TX w
  | _ => txns
  end.

Definition credit_fallback : JsVal :=
  JObj [("utilization", JNum 39);
        ("alerts",
         JArr [JStr "Demo default: pay a small amount before statement close to reduce utilization."])].

Definition narrative_fallback : JsVal := JStr "Stable week.".

(** [(x && x > 0) ? x : d], for a column that may be null. *)
Definition positive_or (v : option Q) (d : Q) : Q :=
  match v with
  | Some x => if Qlt_bool 0 x then x else d
  | None => d
  end.

(** The request body of the guardrails call of the summary. *)
Definition guardrails_payload (creditAcct : option Account) : JsVal :=
  match creditAcct with
  | Some a =>
      JObj [("balance", JNum (positive_or (Some (acc_balance a)) 780));
            ("apr_annual", JNum (positive_or (acc_apr a) (2399 # 100)));
            ("min_payment", JNum 35);
            ("extra_payment", JNum 0);
            ("credit_limit", JNum (positive_or (acc_creditLimit a) 2000))]
  | None =>
      JObj [("balance", JNum 780);
            ("apr_annual", JNum (2399 # 100));
            ("min_payment", JNum 35);
            ("extra_payment", JNum 0);
            ("credit_limit", JNum 2000)]
  end.

(** The values of steps 1 to 5 of the summary, after reduction. *)
Record Reduced := {
  r_income : Z;
  r_baseline : Z;
  r_subscriptions : JsVal;
  r_spikes : JsVal;
  r_movers : JsVal;
  r_credit : JsVal
}.

(** The reduction of one branch of the joined group. *)
Definition reduce_branch (p : Outcome JsVal) (key : string) : M JsVal :=
  match p with
  | Fulfilled data => eval (js_get data key)
  | Rejected _ => ret (JArr [])
  end.

(** Step 5 of the summary. *)
Definition credit_guardrails (w : World) (userId : string) : M JsVal :=
  try_catch
    (let! creditAcct := findCreditAccount w userId in
     let! p := post w (CreditRepayment (guardrails_payload creditAcct)) in
     let! data := await p in
     eval (js_get data "guardrails"))
    (fun _ => ret credit_fallback).

(** Steps 1 to 5 of the summary. *)
Definition summary_reduce (w : World) (userId : string) : M Reduced :=
  let! txns := dbTransactions w userId in
  let txArray := orFixture w txns in
  let norm := map normalize txArray in
  let income := monthlyIncomeArray (now w) norm in
  let baseline := monthlyBaselineSpendArray (now w) norm in
  let! p1 := post w (DetectSubscriptions norm) in
  let! p2 := post w (SpendInsights norm) in
  let! p3 := post w (SpendMovers norm) in
  let! settled := allSettled3 p1 p2 p3 in
  let '(subsP, spikesP, moversP) := settled in
  let! subscriptions := reduce_branch subsP "subscriptions" in
  let! spikes := reduce_branch spikesP "spikes" in
  let! movers := reduce_branch moversP "movers" in
  let! credit := credit_guardrails w userId in
  ret {| r_income := income; r_baseline := baseline;
         r_subscriptions := subscriptions; r_spikes := spikes;
         r_movers := movers; r_credit := credit |}.

(** The [metrics] object built from the given values; [spike] is
    [spikes[0]]. *)
Definition metrics_object (income baseline : Z) (utilization count spike : JsVal)
  : JsVal :=
  JObj [("income", num income);
        ("baseline", num baseline);
        ("credit_utilization", utilization);
        ("subscriptions_count", count);
        ("top_spike_category", js_or (js_get_opt spike "category") JNull);
        ("untouchable_pct", JNum (2 # 10))].

(** The [metrics] object of step 6, its fields evaluated in order. *)
Definition narrative_metrics (r : Reduced) : Outcome JsVal :=
  match js_get (r_credit r) "utilization" with
  | Rejected e => Rejected e
  | Fulfilled utilization =>
      match js_get (r_subscriptions r) "length" with
      | Rejected e => Rejected e
      | Fulfilled count =>
          match js_first (r_spikes r) with
          | Rejected e => Rejected e
          | Fulfilled spike =>
              Fulfilled
                (metrics_object (r_income r) (r_baseline r) utilization count spike)
          end
      end
  end.

(** Step 6 of the summary. *)
Definition weekly_narrative (w : World) (r : Reduced) : M JsVal :=
  try_catch
    (let! metrics := eval (narrative_metrics r) in
     let! p := post w (Narrative (JObj [("metrics", metrics)])) in
     let! data := await p in
     let! narrative := eval (js_get data "narrative") in
     ret (js_or narrative narrative_fallback))
    (fun _ => ret narrative_fallback).

(** The object handed to [res.json] in step 7. *)
Definition composite (r : Reduced) (narrative : JsVal) : JsVal :=
  JObj [("income", num (r_income r));
        ("baseline", num (r_baseline r));
        ("credit", r_credit r);
        ("subscriptions", r_subscriptions r);
        ("spikes", r_spikes r);
        ("movers", r_movers r);
        ("weekly_narrative", narrative)].

(** GET /dashboard/summary *)
Definition dashboard_summary : Handler := fun w req =>
  let userId := userId_of req in
  try_catch
    (let! r := summary_reduce w userId in
     let! narrative := weekly_narrative w r in
     res_json (composite r narrative))
    (fun err =>
       res_status_json 500
         (JObj [("error", JStr "summary_failed");
                ("detail", JStr (error_detail err))]));;
  ret Done.

(** A destructuring default, [{ k = d } = ...]: [d] replaces [undefined]. *)
Definition or_default (v d : JsVal) : JsVal :=
  match v with JUndefined => d | _ => v end.

(** POST /budgets/untouchable; nothing in it catches. *)
Definition budgets_untouchable : Handler := fun w req =>
  let userId := userId_of req in
  let! percent := eval (js_get (req_body req) "percent") in
  let! starting := eval (js_get (req_body req) "starting_savings") in
  let starting_savings := or_default starting (JNum 350) in
  let! txns := dbTransactions w userId in
  let txArray := orFixture w txns in
  let income := monthlyIncomeArray (now w) txArray in
  let baseline := monthlyBaselineSpendArray (now w) txArray in
  let! p := post w (UntouchableForecast
                      (JObj [("monthly_income", num income);
                             ("monthly_baseline_spend", num baseline);
                             ("untouchable_pct", percent);
                             ("starting_savings", starting_savings);
                             ("months", JNum 6)])) in
  let! data := await p in
  upsertBudget userId percent;;
  res_json data;;
  ret Done.

(** The request body of the explain call, its fields evaluated in order. *)
Definition explain_payload (balance apr data : JsVal) : Outcome JsVal :=
  let path (a b c : string) : Outcome JsVal :=
    match js_get data a with
    | Rejected e => Rejected e
    | Fulfilled x =>
        match js_get x b with
        | Rejected e => Rejected e
        | Fulfilled y => js_get y c
        end
    end in
  match path "simulation" "min_only" "months" with
  | Rejected e => Rejected e
  | Fulfilled min_months =>
  match path "simulation" "min_only" "total_interest" with
  | Rejected e => Rejected e
  | Fulfilled min_interest =>
  match path "simulation" "min_plus_extra" "months" with
  | Rejected e => Rejected e
  | Fulfilled plus_months =>
  match path "simulation" "min_plus_extra" "total_interest" with
  | Rejected e => Rejected e
  | Fulfilled plus_interest =>
  match js_get data "guardrails" with
  | Rejected e => Rejected e
  | Fulfilled g =>
  match js_get g "utilization" with
  | Rejected e => Rejected e
  | Fulfilled utilization =>
      Fulfilled (JObj [("balance", balance);
                       ("apr_annual", apr);
                       ("min_months", min_months);
                       ("min_interest", min_interest);
                       ("plus_months", plus_months);
                       ("plus_interest", plus_interest);
                       ("utilization", utilization)])
  end end end end end end.

(** POST /credit/simulate *)
Definition credit_simulate : Handler := fun w req =>
  try_catch
    (let! balance := eval (js_get (req_body req) "balance") in
     let! apr := eval (js_get (req_body req) "apr") in
     let! min_payment := eval (js_get (req_body req) "min_payment") in
     let! extra_payment := eval (js_get (req_body req) "extra_payment") in
     let! credit_limit := eval (js_get (req_body req) "credit_limit") in
     let! p := post w (CreditRepayment
                         (JObj [("balance", balance);
                                ("apr_annual", apr);
                                ("min_payment", min_payment);
                                ("extra_payment", extra_payment);
                                ("credit_limit", credit_limit)])) in
     let! sim := await p in
     let! explanation :=
       try_catch
         (let! payload := eval (explain_payload balance apr sim) in
          let! q := post w (ExplainCredit payload) in
          let! ex := await q in
          eval (js_get ex "explanation"))
         (fun _ => ret JNull) in
     res_json (JObj (obj_set "explanation" explanation (js_spread sim))))
    (fun _ =>
       res_status_json 500 (JObj [("error", JStr "Credit simulation failed")]));;
  ret Done.

(** POST /insurance/assess, as registered first. *)
Definition insurance_assess : Handler := fun w req =>
  try_catch
    (let! p := post w (InsuranceNudge (req_body req)) in
     let! data := await p in
     let found := js_get_opt data "suggestions" in
     let suggestions := if is_array found then found else JArr [] in
     res_json (JObj [("suggestions", suggestions)]))
    (fun _ => res_status_json 200 (JObj [("suggestions", JArr [])]));;
  ret Done.

(** POST /insurance/assess, as registered a second time at the end of the
    file (the pass-through). *)
Definition insurance_passthrough : Handler := fun w req =>
  let! p := post w (InsuranceNudge (req_body req)) in
  let! data := await p in
  res_json data;;
  ret Done.

(** ** The application: routes in the order they are registered *)

Inductive Method : Type := GET | POST.

#[export] Instance Method_eq_dec : EqDecision Method.
Proof. solve_decision. Defined.

Record Route := {
  route_method : Method;
  route_path : string;
  route_chain : list Handler
}.

(** The handlers of a route run in order, each one only if the one before
    called [next()]. *)
Fixpoint run_chain (hs : list Handler) (w : World) (req : Request) : M Step :=
  match hs with
  | [] => ret Next
  | h :: hs' =>
      let! st := h w req in
      match st with
      | Next => run_chain hs' w req
      | Done => ret Done
      end
  end.

(** The routes of the orchestration core (the auth and debug routes have
    other paths). *)
Definition app : list Route :=
  [ {| route_method := POST; route_path := "/insurance/assess";
       route_chain := [requireAuth; insurance_assess] |};
    {| route_method := GET; route_path := "/dashboard/summary";
       route_chain := [requireAuth; dashboard_summary] |};
    {| route_method := POST; route_path := "/budgets/untouchable";
       route_chain := [requireAuth; budgets_untouchable] |};
    {| route_method := POST; route_path := "/credit/simulate";
       route_chain := [requireAuth; credit_simulate] |};
    {| route_method := POST; route_path := "/insurance/assess";
       route_chain := [requireAuth; insurance_passthrough] |} ].

(** Express walks the routes in registration order; a later route is
    reached only if every matching one before it called [next()]. *)
Fixpoint dispatch (routes : list Route) (m : Method) (path : string)
  (w : World) (req : Request) : M Step :=
  match routes with
  | [] => ret Next
  | r :: rest =>
      if bool_decide (route_method r = m) && String.eqb (route_path r) path
      then
        let! st := run_chain (route_chain r) w req in
        match st with
        | Next => dispatch rest m path w req
        | Done => ret Done
        end
      else dispatch rest m path w req
  end.

(** A run of a request against the application, from a Budget table [db]:
    how the handler's promise settled, and the final state.  A handler whose
    promise rejects has written no response. *)
Definition serve (m : Method) (path : string) (w : World) (req : Request)
  (db : gmap string Q) : Outcome Step * State :=
  dispatch app m path w req (initial db).

Definition getDashboardSummary := serve GET "/dashboard/summary".
Definition forecastUntouchable := serve POST "/budgets/untouchable".
Definition simulateAndExplainCredit := serve POST "/credit/simulate".
Definition assessInsurance := serve POST "/insurance/assess".

(** What the caller receives: the response the run wrote, if any. *)
Definition reply (run : Outcome Step * State) : option Response := response (snd run).

Definition events (run : Outcome Step * State) : list Event := trace (snd run).

(** ** The metrics as the specification words them *)

Module MetricsSpec.

(** The sum of a sequence of amounts. *)
Definition Qsum (l : list Q) : Q := fold_right Qplus 0%Q l.




(** Dated on or after the start of the window. *)
Definition since_start (now d : Z) : bool := (window_from now <=? d)%Z.

Section Sums.
Context {A : Type} `{Dated A}.

(** The sum of the positive amounts whose date satisfies [sel]. *)
Definition inflow (sel : Z -> bool) (tx : list A) : Q :=
  Qsum (map amount_of
          (List.filter (fun t => sel (date_of t) && Qlt_bool 0 (amount_of t)) tx)).

(** The sum of the negative amounts whose date satisfies [sel]. *)
Definition outflow (sel : Z -> bool) (tx : list A) : Q :=
  Qsum (map amount_of
          (List.filter (fun t => sel (date_of t) && Qlt_bool (amount_of t) 0) tx)).


End Sums.

End MetricsSpec.

(** ** Reading a log of events *)

(** A call to provider [p] was issued. *)
Definition issued (p : Provider) (tr : list Event) : bool :=
  existsb (fun e => match e with
                    | Issue c => bool_decide (provider_of c = p)
                    | _ => false
                    end) tr.

(** The handler resumed with the outcome of a call to provider [p]. *)
Definition settled (p : Provider) (tr : list Event) : bool :=
  existsb (fun e => match e with
                    | Settle c _ => bool_decide (provider_of c = p)
                    | _ => false
                    end) tr.

(** The handler resumed with a 2xx answer of provider [p]. *)
Definition succeeded (p : Provider) (tr : list Event) : bool :=
  existsb (fun e => match e with
                    | Settle c (Fulfilled _) => bool_decide (provider_of c = p)
                    | _ => false
                    end) tr.

(** The Budget table was written. *)
Definition upserted (tr : list Event) : bool :=
  existsb (fun e => match e with UpsertBudget _ _ => true | _ => false end) tr.



(** The handler resumed with a failure of provider [p]. *)
Definition failed (p : Provider) (tr : list Event) : bool :=
  existsb (fun e => match e with
                    | Settle c (Rejected _) => bool_decide (provider_of c = p)
                    | _ => false
                    end) tr.

(** Position of the first event satisfying [f]. *)
Fixpoint first_index (f : Event -> bool) (tr : list Event) : option nat :=
  match tr with
  | [] => None
  | e :: tr' => if f e then Some 0 else S <$> first_index f tr'
  end.

Definition issue_index (p : Provider) : list Event -> option nat :=
  first_index (fun e => match e with
                        | Issue c => bool_decide (provider_of c = p)
                        | _ => false
                        end).

Definition settle_index (p : Provider) : list Event -> option nat :=
  first_index (fun e => match e with
                        | Settle c _ => bool_decide (provider_of c = p)
                        | _ => false
                        end).

(** Every provider of [ps] is called, and called before the handler has
    waited for the outcome of any of them. *)
Definition issued_without_waiting (ps : list Provider) (tr : list Event) : bool :=
  forallb (fun p =>
             match issue_index p tr with
             | None => false
             | Some i =>
                 forallb (fun q =>
                            match settle_index q tr with
                            | None => true
                            | Some j => (i <? j)%nat
                            end) ps
             end) ps.

(** The providers of the joined group of the summary. *)
Definition in_group (p : Provider) : bool :=
  match p with
  | Subscriptions | Spikes | Movers => true
  | _ => false
  end.



(** An upstream problem as /insurance/assess sees it: no 2xx answer, or a
    body without a suggestions array. *)
Definition insurance_upstream_failed (o : Outcome JsVal) : bool :=
  match o with
  | Rejected _ => true
  | Fulfilled data => negb (is_array (js_get_opt data "suggestions"))
  end.

(** The response is a client error (4xx), as a refused input would be. *)
Definition client_error (r : option Response) : bool :=
  match r with
  | Some x => (400 <=? status x)%Z && (status x <? 500)%Z
  | None => false
  end.


(** ** What a run of the summary amounts to *)

(** The state after [tr] was logged. *)
Definition log (s : State) (tr : list Event) : State :=
  {| trace := trace s ++ tr; budgets := budgets s; response := response s |}.

(** The state after a response was written. *)
Definition responded (code : Z) (v : JsVal) (s : State) : State :=
  {| trace := trace s; budgets := budgets s;
     response := Some {| status := code; body := json_wire v |} |}.

(** The normalized transactions the summary works on. *)
Definition norm_of (w : World) (txns : list Transaction) : list NormTx :=
  map normalize (orFixture w txns).

(** The events of steps 1 to 4: the ledger read, the three calls of the
    group going out, the join. *)
Definition group_events (w : World) (userId : string) (norm : list NormTx)
  : list Event :=
  [ReadTransactions userId;
   Issue (DetectSubscriptions norm);
   Issue (SpendInsights norm);
   Issue (SpendMovers norm);
   Settle (DetectSubscriptions norm) (upstream w (DetectSubscriptions norm));
   Settle (SpendInsights norm) (upstream w (SpendInsights norm));
   Settle (SpendMovers norm) (upstream w (SpendMovers norm))].

(** The value a branch of the group reduces to, or the TypeError of reading
    a field off a missing body. *)
Definition branch_value (p : Outcome JsVal) (key : string) : Outcome JsVal :=
  match p with
  | Fulfilled data => js_get data key
  | Rejected _ => Fulfilled (JArr [])
  end.

(** The events of step 5. *)
Definition guardrails_events (w : World) (userId : string) : list Event :=
  ReadCreditAccount userId ::
  match credit_account_of w userId with
  | Rejected _ => []
  | Fulfilled acct =>
      let c := CreditRepayment (guardrails_payload acct) in
      [Issue c; Settle c (upstream w c)]
  end.

(** The value of [credit] after step 5. *)
Definition guardrails_value (w : World) (userId : string) : JsVal :=
  match credit_account_of w userId with
  | Rejected _ => credit_fallback
  | Fulfilled acct =>
      match upstream w (CreditRepayment (guardrails_payload acct)) with
      | Rejected _ => credit_fallback
      | Fulfilled data =>
          match js_get data "guardrails" with
          | Rejected _ => credit_fallback
          | Fulfilled g => g
          end
      end
  end.

(** The events of step 6. *)
Definition narrative_events (w : World) (r : Reduced) : list Event :=
  match narrative_metrics r with
  | Rejected _ => []
  | Fulfilled metrics =>
      let c := Narrative (JObj [("metrics", metrics)]) in
      [Issue c; Settle c (upstream w c)]
  end.

(** The value of [weekly_narrative] after step 6. *)
Definition narrative_value (w : World) (r : Reduced) : JsVal :=
  match narrative_metrics r with
  | Rejected _ => narrative_fallback
  | Fulfilled metrics =>
      match upstream w (Narrative (JObj [("metrics", metrics)])) with
      | Rejected _ => narrative_fallback
      | Fulfilled data =>
          match js_get data "narrative" with
          | Rejected _ => narrative_fallback
          | Fulfilled n => js_or n narrative_fallback
          end
      end
  end.

(** The three branches of the group after reduction, or the error thrown
    while reducing them. *)
Definition group_value (w : World) (norm : list NormTx)
  : Outcome (JsVal * JsVal * JsVal) :=
  match branch_value (upstream w (DetectSubscriptions norm)) "subscriptions" with
  | Rejected e => Rejected e
  | Fulfilled subscriptions =>
      match branch_value (upstream w (SpendInsights norm)) "spikes" with
      | Rejected e => Rejected e
      | Fulfilled spikes =>
          match branch_value (upstream w (SpendMovers norm)) "movers" with
          | Rejected e => Rejected e
          | Fulfilled movers => Fulfilled (subscriptions, spikes, movers)
          end
      end
  end.

(** The reduced values of steps 1 to 5. *)
Definition reduced_of (w : World) (userId : string) (norm : list NormTx)
  (g : JsVal * JsVal * JsVal) : Reduced :=
  {| r_income := monthlyIncomeArray (now w) norm;
     r_baseline := monthlyBaselineSpendArray (now w) norm;
     r_subscriptions := g.1.1;
     r_spikes := g.1.2;
     r_movers := g.2;
     r_credit := guardrails_value w userId |}.

Definition summary_failed (e : JsError) : JsVal :=
  JObj [("error", JStr "summary_failed"); ("detail", JStr (error_detail e))].

(** The state a run of the summary handler ends in, from state [s], when
    the ledger read gave [txns]. *)
Definition summary_state (w : World) (uid : string) (txns : list Transaction)
  (s : State) : State :=
  let norm := norm_of w txns in
  match group_value w norm with
  | Rejected e =>
      responded 500 (summary_failed e) (log s (group_events w uid norm))
  | Fulfilled g =>
      let r := reduced_of w uid norm g in
      responded 200 (composite r (narrative_value w r))
        (log s (group_events w uid norm ++ guardrails_events w uid
                ++ narrative_events w r))
  end.



(** ** What a run of the other handlers amounts to *)

(** The simulation call of /credit/simulate for a request body. *)
Definition simulate_call (body : JsVal) : Call :=
  CreditRepayment
    (JObj [("balance", js_get_opt body "balance");
           ("apr_annual", js_get_opt body "apr");
           ("min_payment", js_get_opt body "min_payment");
           ("extra_payment", js_get_opt body "extra_payment");
           ("credit_limit", js_get_opt body "credit_limit")]).

Definition simulation_failed : JsVal :=
  JObj [("error", JStr "Credit simulation failed")].

(** The state a run of the /credit/simulate handler ends in, from state [s]. *)
Definition simulate_state (w : World) (body : JsVal) (s : State) : State :=
  if nullish body then responded 500 simulation_failed s
  else
    let c := simulate_call body in
    match upstream w c with
    | Rejected e =>
        responded 500 simulation_failed (log s [Issue c; Settle c (Rejected e)])
    | Fulfilled sim =>
        let answer (explanation : JsVal) (tr : list Event) : State :=
          responded 200 (JObj (obj_set "explanation" explanation (js_spread sim)))
            (log s ([Issue c; Settle c (Fulfilled sim)] ++ tr)) in
        match explain_payload (js_get_opt body "balance") (js_get_opt body "apr") sim with
        | Rejected _ => answer JNull []
        | Fulfilled p =>
            let c' := ExplainCredit p in
            match upstream w c' with
            | Rejected e => answer JNull [Issue c'; Settle c' (Rejected e)]
            | Fulfilled ex =>
                answer (match js_get ex "explanation" with
                        | Fulfilled x => x
                        | Rejected _ => JNull
                        end)
                  [Issue c'; Settle c' (Fulfilled ex)]
            end
        end
    end.

(** The suggestions /insurance/assess answers with, given how the upstream
    call settled. *)
Definition suggestions_of (o : Outcome JsVal) : JsVal :=
  match o with
  | Fulfilled data =>
      if is_array (js_get_opt data "suggestions")
      then js_get_opt data "suggestions"
      else JArr []
  | Rejected _ => JArr []
  end.

(** The forecast call of /budgets/untouchable for a request body and the
    rows the ledger read gave. *)
Definition forecast_call (w : World) (body : JsVal) (txns : list Transaction)
  : Call :=
  UntouchableForecast
    (JObj [("monthly_income", num (monthlyIncomeArray (now w) (orFixture w txns)));
           ("monthly_baseline_spend",
            num (monthlyBaselineSpendArray (now w) (orFixture w txns)));
           ("untouchable_pct", js_get_opt body "percent");
           ("starting_savings",
            or_default (js_get_opt body "starting_savings") (JNum 350));
           ("months", JNum 6)]).

(** The state after the budget of [userId] was written. *)
Definition persisted (userId : string) (q : Q) (s : State) : State :=
  {| trace := trace s; budgets := <[userId := q]> (budgets s);
     response := response s |}.

(** How a run of the /budgets/untouchable handler ends, from state [s]. *)
Definition forecast_run (w : World) (req : Request) (s : State)
  : Outcome Step * State :=
  let userId := userId_of req in
  match js_get (req_body req) "percent" with
  | Rejected e => (Rejected e, s)
  | Fulfilled percent =>
      match transactions_of w userId with
      | Rejected e => (Rejected e, log s [ReadTransactions userId])
      | Fulfilled txns =>
          let c := forecast_call w (req_body req) txns in
          match upstream w c with
          | Rejected e =>
              (Rejected e,
               log s [ReadTransactions userId; Issue c; Settle c (Rejected e)])
          | Fulfilled data =>
              let s' := log s [ReadTransactions userId; Issue c;
                               Settle c (Fulfilled data);
                               UpsertBudget userId percent] in
              match percent with
              | JNum q => (Fulfilled Done, responded 200 data (persisted userId q s'))
              | _ =>
                  (Rejected {| err_name := "PrismaClientValidationError";
                               err_message :=
                                 "Argument untouchablePct is missing or invalid." |},
                   s')
              end
          end
      end
  end.

(** The event is the issue of a call to provider [p]. *)
Definition is_issue_of (p : Provider) (e : Event) : Prop :=
  match e with
  | Issue c => provider_of c = p
  | _ => False
  end.

(** ** Sample inputs *)

Module Sample.

Definition timeout : JsError :=
  {| err_name := "AxiosError"; err_message := "timeout of 8000ms exceeded" |}.

Definition today : Z := (20000 * msPerDay + 43200000)%Z.

Definition entry (day : Z) (amount : Q) : Transaction :=
  {| tx_date := (day * msPerDay)%Z; tx_amount := amount;
     tx_merchant := None; tx_category := None;
     tx_account_type := None; tx_type := None;
     tx_isRecurring := None; tx_is_recurring := None |}.



(** Payroll, rent and a bill within the window. *)
Definition ledger : list Transaction :=
  [entry 19990 1900; entry 19991 (-1600); entry 19994 (-60)].

Definition user : Request :=
  {| session_userId := Some "u1"; req_body := JObj [] |}.

Definition world (up : Call -> Outcome JsVal) : World :=
  {| upstream := up;
     transactions_of := fun _ => Fulfilled ledger;
     credit_account_of := fun _ => Fulfilled None;
     FIXTURE_TX := [];
     now := today |}.

(** Every provider answers 2xx with a body of the contracted shape. *)
Definition healthy (c : Call) : Outcome JsVal :=
  match c with
  | DetectSubscriptions _ => Fulfilled (JObj [("subscriptions", JArr [])])
  | SpendInsights _ =>
      Fulfilled (JObj [("spikes", JArr [JObj [("category", JStr "dining")]])])
  | SpendMovers _ => Fulfilled (JObj [("movers", JArr [])])
  | CreditRepayment _ =>
      Fulfilled
        (JObj [("simulation",
                JObj [("min_only",
                       JObj [("months", JNum 28); ("total_interest", JNum 230)]);
                      ("min_plus_extra",
                       JObj [("months", JNum 20); ("total_interest", JNum 160)])]);
               ("guardrails",
                JObj [("utilization", JNum 39); ("alerts", JArr [])])])
  | Narrative _ => Fulfilled (JObj [("narrative", JStr "Dining rose this week.")])
  | ExplainCredit _ => Fulfilled (JObj [("explanation", JStr "Pay a little extra.")])
  | UntouchableForecast _ => Fulfilled (JObj [("suggested_pct", JNum (2 # 10))])
  | InsuranceNudge _ => Fulfilled (JObj [("suggestions", JArr [])])
  end.

(** Every provider call fails. *)
Definition down (c : Call) : Outcome JsVal := Rejected timeout.

(** As [healthy], but subscription detection answers 2xx with [body]. *)
Definition subscriptions_answer (body : JsVal) (c : Call) : Outcome JsVal :=
  match c with
  | DetectSubscriptions _ => Fulfilled body
  | _ => healthy c
  end.


Definition simulate_request : Request :=
  {| session_userId := Some "u1";
     req_body := JObj [("balance", JNum 780); ("apr", JNum (2399 # 100));
                       ("min_payment", JNum 35); ("extra_payment", JNum 0);
                       ("credit_limit", JNum 2000)] |}.

Definition forecast_request : Request :=
  {| session_userId := Some "u1";
     req_body := JObj [("percent", JNum (2 # 10))] |}.

End Sample.

(** ** More readings of a run *)

(** How many calls to provider [p] were issued. *)
Definition issue_count (p : Provider) (tr : list Event) : nat :=
  length (List.filter (fun e => match e with
                                | Issue c => bool_decide (provider_of c = p)
                                | _ => false
                                end) tr).

(** The database was read. *)
Definition db_read (tr : list Event) : bool :=
  existsb (fun e => match e with
                    | ReadTransactions _ | ReadCreditAccount _ => true
                    | _ => false
                    end) tr.

(** The 401 answer of [requireAuth]. *)
Definition unauthorized : Response :=
  {| status := 401; body := JObj [("error", JStr "auth")] |}.

(** ** Cross-origin requests *)

(** The [origin] callback of the CORS middleware: a request without an
    Origin header (or with an empty one) is let through; otherwise the origin
    has to start with one of three development origins. *)
Definition cors_origin (origin : option string) : bool :=
  match origin with
  | None => true
  | Some o =>
      if String.eqb o "" then true
      else String.prefix "http://localhost:3000" o
           || String.prefix "http://127.0.0.1:3000" o
           || String.prefix "http://dhcp-v037-206:3000" o
  end.

(** ** The database of users, accounts and transactions, and the session *)

Record UserRow := {
  u_id : string;
  u_email : string;
  u_password : option string      (* the column may be null *)
}.

Record AccountRow := {
  a_id : string;
  a_userId : string;
  a_type : string;
  a_name : string;
  a_balance : Q;
  a_apr : option Q;
  a_creditLimit : option Q
}.

Record TxRow := {
  r_userId : string;
  r_accountId : string;
  r_date : Z;
  r_amount : Q;
  r_merchant : string;
  r_category : string;
  r_isRecurring : bool
}.

(** The tables (users by their unique email, accounts by their unique pair
    of user id and name), the user id of the session, the response written so
    far, the counter new ids are made from, and [db_left]: how many more
    database operations will go through before the database stops
    answering. *)
Record Store := {
  users : gmap string UserRow;
  accounts : gmap (string * string) AccountRow;
  rows : list TxRow;
  session : option string;
  sent : option Response;
  next_id : nat;
  db_left : nat
}.

(** What the handlers take from the libraries they call: bcrypt, and
    whether the session store lets a session be regenerated and saved. *)
Record Env := {
  bcrypt_hash : string -> string;
  bcrypt_compare : string -> string -> bool;
  regenerate_ok : bool;
  save_ok : bool
}.

(** A step of a handler over the store. *)
Definition DbM (A : Type) : Type := Store -> Outcome A * Store.

Definition hret {A} (a : A) : DbM A := fun s => (Fulfilled a, s).

Definition hbind {A B} (m : DbM A) (k : A -> DbM B) : DbM B :=
  fun s =>
    match m s with
    | (Fulfilled a, s') => k a s'
    | (Rejected e, s') => (Rejected e, s')
    end.

Notation "'do!' x ':=' m 'in' k" := (hbind m (fun x => k))
  (at level 10, x pattern, m at level 100, k at level 200).

Definition hthrow {A} (e : JsError) : DbM A := fun s => (Rejected e, s).

Definition htry {A} (m : DbM A) (h : JsError -> DbM A) : DbM A :=
  fun s =>
    match m s with
    | (Fulfilled a, s') => (Fulfilled a, s')
    | (Rejected e, s') => h e s'
    end.

Definition db_down : JsError :=
  {| err_name := "PrismaClientInitializationError";
     err_message := "Can't reach database server" |}.

Definition db_refused (msg : string) : JsError :=
  {| err_name := "PrismaClientKnownRequestError"; err_message := msg |}.

Definition db_invalid : JsError :=
  {| err_name := "PrismaClientValidationError";
     err_message := "Invalid invocation" |}.

(** One awaited database operation: it goes through if the database still
    answers, and then may itself refuse the request. *)
Definition db_op {A} (op : Store -> Outcome A * Store) : DbM A :=
  fun s =>
    match db_left s with
    | O => (Rejected db_down, s)
    | S n =>
        op {| users := users s; accounts := accounts s; rows := rows s;
              session := session s; sent := sent s; next_id := next_id s;
              db_left := n |}
    end.

(** The id the database gives the next new row. *)
Definition new_id (s : Store) : string := "id" ++ pretty (next_id s).

(** Whether a user with this id exists (the foreign key of an account). *)
Definition user_exists (userId : string) (s : Store) : bool :=
  existsb (fun eu => String.eqb (u_id eu.2) userId) (map_to_list (users s)).

(** [prisma.account.upsert] with [update: {}] and
    [create: { userId, type: t, name: t, balance: 0 }]: the row of that user
    and name as it is, or a new one. *)
Definition upsertAccount (userId t : string) : DbM AccountRow :=
  db_op (fun s =>
    match accounts s !! (userId, t) with
    | Some a => (Fulfilled a, s)
    | None =>
        if user_exists userId s then
          let a := {| a_id := new_id s; a_userId := userId; a_type := t;
                      a_name := t; a_balance := 0; a_apr := None;
                      a_creditLimit := None |} in
          (Fulfilled a,
           {| users := users s; accounts := <[(userId, t) := a]> (accounts s);
              rows := rows s; session := session s; sent := sent s;
              next_id := S (next_id s); db_left := db_left s |})
        else (Rejected (db_refused "Foreign key constraint failed: Account_userId_fkey"), s)
    end).

Definition account_types : list string := ["income"; "checking"; "savings"; "credit"].

(** The loop [for (const t of types) { ...; map[t] = a.id }]. *)
Fixpoint accounts_loop (userId : string) (types : list string)
  (map : gmap string string) : DbM (gmap string string) :=
  match types with
  | [] => hret map
  | t :: types' =>
      do! a := upsertAccount userId t in
      accounts_loop userId types' (<[t := a_id a]> map)
  end.

Definition getOrCreateDefaultAccounts (userId : string) : DbM (gmap string string) :=
  accounts_loop userId account_types ∅.

(** The store after [n] more database operations went through. *)
Definition spend (n : nat) (s : Store) : Store :=
  {| users := users s; accounts := accounts s; rows := rows s;
     session := session s; sent := sent s; next_id := next_id s;
     db_left := db_left s - n |}.

(** Account [t] of the user is there and [map] gives its id. *)
Definition account_known (userId : string) (map : gmap string string)
  (s : Store) (t : string) : Prop :=
  exists a, accounts s !! (userId, t) = Some a /\ map !! t = Some (a_id a).

(** A freshly created default account. *)
Definition default_account (userId : string) (a : AccountRow) : Prop :=
  a_userId a = userId /\ a_type a = a_name a /\ a_balance a = 0%Q
  /\ a_apr a = None /\ a_creditLimit a = None.

(** ** Sign-up, login, logout *)

(** [res.status(code).json(v)] on the store. *)
Definition answer (code : Z) (v : JsVal) : DbM unit :=
  fun s => (Fulfilled tt,
            {| users := users s; accounts := accounts s; rows := rows s;
               session := session s;
               sent := Some {| status := code; body := json_wire v |};
               next_id := next_id s; db_left := db_left s |}).

Definition set_session (u : option string) : DbM unit :=
  fun s => (Fulfilled tt,
            {| users := users s; accounts := accounts s; rows := rows s;
               session := u; sent := sent s;
               next_id := next_id s; db_left := db_left s |}).

(** [prisma.user.findUnique({ where: { email } })]: the client refuses
    anything but a string before it asks the database. *)
Definition findUserByEmail (email : JsVal) : DbM (option UserRow) :=
  match email with
  | JStr e => db_op (fun s => (Fulfilled (users s !! e), s))
  | _ => hthrow db_invalid
  end.

(** [prisma.user.create({ data: { email, password: hash } })]; the email is
    unique. *)
Definition createUser (email : JsVal) (hash : string) : DbM UserRow :=
  match email with
  | JStr e =>
      db_op (fun s =>
        match users s !! e with
        | Some _ =>
            (Rejected (db_refused "Unique constraint failed on the fields: (`email`)"), s)
        | None =>
            let u := {| u_id := new_id s; u_email := e; u_password := Some hash |} in
            (Fulfilled u,
             {| users := <[e := u]> (users s); accounts := accounts s;
                rows := rows s; session := session s; sent := sent s;
                next_id := S (next_id s); db_left := db_left s |})
        end)
  | _ => hthrow db_invalid
  end.

Definition illegal_arguments : JsError :=
  {| err_name := "Error"; err_message := "Illegal arguments" |}.

(** [bcrypt.hash(password, 10)]: rejects what is not a string. *)
Definition bcryptHash (env : Env) (password : JsVal) : DbM string :=
  match password with
  | JStr p => hret (bcrypt_hash env p)
  | _ => hthrow illegal_arguments
  end.

(** [bcrypt.compare(password, hash)]: rejects what is not a string. *)
Definition bcryptCompare (env : Env) (password : JsVal) (hash : string) : DbM bool :=
  match password with
  | JStr p => hret (bcrypt_compare env p hash)
  | _ => hthrow illegal_arguments
  end.

Definition ok_body : JsVal := JObj [("ok", JBool true)].

Definition error_body (msg : string) : JsVal := JObj [("error", JStr msg)].

(** The end of sign-up and login: the session is regenerated, the user id
    is put into the new session and the session is saved; [session] is the
    user id the session store holds for the client. *)
Definition establish_session (env : Env) (userId : string) : DbM unit :=
  if regenerate_ok env then
    if save_ok env then
      do! _ := set_session (Some userId) in answer 200 ok_body
    else
      do! _ := set_session None in answer 500 (error_body "session save failed")
  else answer 500 (error_body "session regen failed").

(** [const { k } = req.body || {}]. *)
Definition destructured (body : JsVal) (k : string) : JsVal :=
  js_get_opt (js_or body (JObj [])) k.

(** POST /auth/signup *)
Definition signup (env : Env) (body : JsVal) : DbM unit :=
  let email := destructured body "email" in
  let password := destructured body "password" in
  if negb (truthy email) || negb (truthy password)
  then answer 400 (error_body "email/password required")
  else
    do! existing := findUserByEmail email in
    match existing with
    | Some _ => answer 400 (error_body "email exists")
    | None =>
        do! hash := bcryptHash env password in
        do! user := createUser email hash in
        do! _ := getOrCreateDefaultAccounts (u_id user) in
        establish_session env (u_id user)
    end.

(** POST /auth/login *)
Definition login (env : Env) (body : JsVal) : DbM unit :=
  let email := destructured body "email" in
  let password := destructured body "password" in
  do! user := findUserByEmail email in
  match user with
  | None => answer 400 (error_body "invalid")
  | Some u =>
      match u_password u with
      | None => answer 400 (error_body "invalid")
      | Some stored =>
          if String.eqb stored "" then answer 400 (error_body "invalid")
          else
            do! ok := bcryptCompare env password stored in
            if ok then establish_session env (u_id u)
            else answer 400 (error_body "invalid")
      end
  end.

(** POST /auth/logout *)
Definition logout : DbM unit :=
  do! _ := set_session None in answer 200 ok_body.

(** ** The demo seeds *)

(** An entry of the literal arrays of the seed routes. *)
Record SeedTx := {
  s_day : Z;                 (* the day of the month, [d(n)] *)
  s_amount : Q;
  s_merchant : string;
  s_category : string;
  s_account_type : string;
  s_is_recurring : bool
}.

Definition seed_entry (day : Z) (amount : Q) (merchant category account_type : string)
  (recurring : bool) : SeedTx :=
  {| s_day := day; s_amount := amount; s_merchant := merchant;
     s_category := category; s_account_type := account_type;
     s_is_recurring := recurring |}.

(** The array [tx] of /debug/seed-demo. *)
Definition demo_tx : list SeedTx :=
  [ seed_entry 1 1900 "Payroll" "income" "income" false;
    seed_entry 15 1900 "Payroll" "income" "income" false;
    seed_entry 2 (-1600) "Rent" "housing" "checking" false;
    seed_entry 5 (-60) "Verizon" "utilities" "checking" false;
    seed_entry 6 (-55) "Wi-Fi" "utilities" "checking" false;
    seed_entry 7 (-11) "Spotify" "subscription" "credit" true;
    seed_entry 8 (-16) "Netflix" "subscription" "credit" true;
    seed_entry 9 (-29) "Gym" "subscription" "credit" true;
    seed_entry 10 (-65) "Starbucks" "coffee" "credit" false;
    seed_entry 12 (-120) "Walmart" "groceries" "checking" false;
    seed_entry 18 (-140) "Target" "groceries" "checking" false;
    seed_entry 20 (-85) "Restaurant" "dining" "credit" false ].

(** The array [prev] of /debug/seed-more. *)
Definition prev_tx : list SeedTx :=
  [ seed_entry 1 1900 "Payroll" "income" "income" false;
    seed_entry 15 1900 "Payroll" "income" "income" false;
    seed_entry 2 (-1600) "Rent" "housing" "checking" false;
    seed_entry 5 (-60) "Verizon" "utilities" "checking" false;
    seed_entry 6 (-55) "Wi-Fi" "utilities" "checking" false;
    seed_entry 7 (-11) "Spotify" "subscription" "credit" true;
    seed_entry 8 (-16) "Netflix" "subscription" "credit" true;
    seed_entry 9 (-29) "Gym" "subscription" "credit" true;
    seed_entry 10 (-58) "Starbucks" "coffee" "credit" false;
    seed_entry 12 (-115) "Walmart" "groceries" "checking" false;
    seed_entry 18 (-130) "Target" "groceries" "checking" false;
    seed_entry 20 (-92) "Restaurant" "dining" "credit" false ].

(** [tx.map(t => ({ userId, accountId: acct[t.account_type], ... }))];
    [d] gives the instant of day [n] of the month the route seeds.  A row
    whose account type is not a key of [acct] has no account id, which the
    client refuses. *)
Fixpoint seed_rows (userId : string) (acct : gmap string string) (d : Z -> Z)
  (tx : list SeedTx) : option (list TxRow) :=
  match tx with
  | [] => Some []
  | t :: tx' =>
      match acct !! s_account_type t, seed_rows userId acct d tx' with
      | Some account, Some rest =>
          Some ({| r_userId := userId; r_accountId := account;
                   r_date := d (s_day t); r_amount := s_amount t;
                   r_merchant := s_merchant t; r_category := s_category t;
                   r_isRecurring := s_is_recurring t |} :: rest)
      | _, _ => None
      end
  end.

(** [prisma.transaction.deleteMany({ where: { userId } })] *)
Definition deleteTransactions (userId : string) : DbM unit :=
  db_op (fun s =>
    (Fulfilled tt,
     {| users := users s; accounts := accounts s;
        rows := List.filter (fun r => negb (String.eqb (r_userId r) userId)) (rows s);
        session := session s; sent := sent s; next_id := next_id s;
        db_left := db_left s |})).

(** [prisma.transaction.createMany({ data })] *)
Definition createTransactions (data : option (list TxRow)) : DbM unit :=
  match data with
  | None => hthrow db_invalid
  | Some new =>
      db_op (fun s =>
        (Fulfilled tt,
         {| users := users s; accounts := accounts s; rows := rows s ++ new;
            session := session s; sent := sent s;
            next_id := next_id s + length new; db_left := db_left s |}))
  end.

(** What [data: { balance: 780, creditLimit: 2000, apr: 23.99 }] makes of
    the account with id [i], and of any other. *)
Definition demo_credit (i : string) (a : AccountRow) : AccountRow :=
  if String.eqb (a_id a) i
  then {| a_id := a_id a; a_userId := a_userId a; a_type := a_type a;
          a_name := a_name a; a_balance := 780; a_apr := Some (2399 # 100);
          a_creditLimit := Some (2000 # 1) |}
  else a.

(** [prisma.account.update({ where: { id }, data: { balance: 780,
    creditLimit: 2000, apr: 23.99 } })]: the id is the primary key, and the
    update of a row that is not there is refused. *)
Definition setCreditDemoValues (id : option string) : DbM unit :=
  match id with
  | None => hthrow db_invalid
  | Some i =>
      db_op (fun s =>
        if existsb (fun ka => String.eqb (a_id ka.2) i) (map_to_list (accounts s))
        then
          (Fulfilled tt,
           {| users := users s; accounts := demo_credit i <$> accounts s;
              rows := rows s; session := session s; sent := sent s;
              next_id := next_id s; db_left := db_left s |})
        else (Rejected (db_refused "Record to update not found."), s))
  end.

(** [String(e)] of an error object. *)
Definition error_string (e : JsError) : string :=
  (err_name e ++ ": " ++ err_message e)%string.

Definition seed_failed (e : JsError) : JsVal :=
  JObj [("ok", JBool false); ("error", JStr (error_string e))].

Definition seed_done (n : nat) : JsVal :=
  JObj [("ok", JBool true); ("inserted", num (Z.of_nat n))].

(** The session gate of the store-based routes ([requireAuth]). *)
Definition authenticated (handler : string -> DbM unit) : DbM unit :=
  fun s =>
    match session s with
    | Some userId =>
        if String.eqb userId "" then answer 401 (error_body "auth") s
        else handler userId s
    | None => answer 401 (error_body "auth") s
    end.

(** POST /debug/seed-demo; [d n] is day [n] of the current month. *)
Definition seed_demo (d : Z -> Z) : DbM unit :=
  authenticated (fun userId =>
    htry
      (do! acct := getOrCreateDefaultAccounts userId in
       do! _ := deleteTransactions userId in
       do! _ := createTransactions (seed_rows userId acct d demo_tx) in
       do! _ := setCreditDemoValues (acct !! "credit") in
       answer 200 (seed_done (length demo_tx)))
      (fun e => answer 500 (seed_failed e))).

(** POST /debug/seed-more; [d n] is day [n] of the month before. *)
Definition seed_more (d : Z -> Z) : DbM unit :=
  authenticated (fun userId =>
    htry
      (do! acct := getOrCreateDefaultAccounts userId in
       do! _ := createTransactions (seed_rows userId acct d prev_tx) in
       answer 200 (seed_done (length prev_tx)))
      (fun e => answer 500 (seed_failed e))).

(** The rows of a user. *)
Definition rows_of (userId : string) (s : Store) : list TxRow :=
  List.filter (fun r => String.eqb (r_userId r) userId) (rows s).

(** The rows of everybody else. *)
Definition rows_of_others (userId : string) (s : Store) : list TxRow :=
  List.filter (fun r => negb (String.eqb (r_userId r) userId)) (rows s).

(** Row [r] is entry [t] of a seed array, dated by [d] and booked on the
    user's account of the entry's type. *)
Definition seeded (userId : string) (d : Z -> Z) (s : Store) (t : SeedTx)
  (r : TxRow) : Prop :=
  r_userId r = userId /\ r_date r = d (s_day t) /\ r_amount r = s_amount t
  /\ r_merchant r = s_merchant t /\ r_category r = s_category t
  /\ r_isRecurring r = s_is_recurring t
  /\ exists a, accounts s !! (userId, s_account_type t) = Some a
               /\ r_accountId r = a_id a.

(** The tables and the session of two stores are the same. *)
Definition same_data (s s' : Store) : Prop :=
  users s' = users s /\ accounts s' = accounts s /\ rows s' = rows s
  /\ session s' = session s.

(** ** Sample store *)

Module SampleStore.

Definition demo_user : UserRow :=
  {| u_id := "u1"; u_email := "demo@example.com"; u_password := Some "$hash" |}.

(** One user, no accounts, no transactions, nobody logged in; [n] database
    operations will go through. *)
Definition one_user (n : nat) : Store :=
  {| users := {["demo@example.com" := demo_user]};
     accounts := ∅; rows := []; session := None; sent := None;
     next_id := 0; db_left := n |}.

(** The same with the user logged in and two old rows, one of the user and
    one of somebody else. *)
Definition logged_in (n : nat) : Store :=
  {| users := {["demo@example.com" := demo_user]};
     accounts := ∅;
     rows := [ {| r_userId := "u1"; r_accountId := "a"; r_date := 0;
                  r_amount := -5; r_merchant := "Old"; r_category := "other";
                  r_isRecurring := false |};
               {| r_userId := "u2"; r_accountId := "b"; r_date := 0;
                  r_amount := 7; r_merchant := "Other"; r_category := "other";
                  r_isRecurring := false |} ];
     session := Some "u1"; sent := None; next_id := 0; db_left := n |}.


(** Day [n] of a month whose first day is day 19990 of the epoch. *)
Definition day_of_month (n : Z) : Z := ((19989 + n) * msPerDay)%Z.

Definition env : Env :=
  {| bcrypt_hash := fun p => ("$2a$10$" ++ p)%string;
     bcrypt_compare := fun p h => String.eqb ("$2a$10$" ++ p)%string h;
     regenerate_ok := true; save_ok := true |}.

Definition credentials : JsVal :=
  JObj [("email", JStr "new@example.com"); ("password", JStr "secret")].

End SampleStore.
(** * Properties *)

Local Open Scope list_scope.

(** ** Metrics *)

Section MetricsFacts.
Import MetricsSpec.

Lemma fold_left_Qplus_Qsum (l : list Q) (a : Q) :
  (fold_left Qplus l a == a + Qsum l)%Q.
Proof.
  revert a; induction l as [|x l IH]; intros a; simpl.
  - ring.
  - rewrite IH. ring.
Qed.

Lemma Qlt_bool_lt (x y : Q) : Qlt_bool x y = true <-> (x < y)%Q.
Proof.
  unfold Qlt_bool. rewrite negb_true_iff. split.
  - intros Hb. apply Qnot_le_lt. intros Hle.
    apply Qle_bool_iff in Hle. congruence.
  - intros Hlt. destruct (Qle_bool y x) eqn:Hb; [|reflexivity].
    apply Qle_bool_iff in Hb. exfalso. exact (Qlt_not_le _ _ Hlt Hb).
Qed.

Context {A : Type} `{Dated A}.


Lemma outflow_nonpos (sel : Z -> bool) (tx : list A) : (outflow sel tx <= 0)%Q.
Proof using Type.
  unfold outflow. induction tx as [|t tx IH]; simpl.
  - apply Qle_refl.
  - destruct (sel (date_of t) && Qlt_bool (amount_of t) 0) eqn:Hsel; simpl; [|exact IH].
    apply andb_true_iff in Hsel as [_ Hneg]. apply Qlt_bool_lt in Hneg.
    apply Qlt_le_weak in Hneg.
    replace 0%Q with (0 + 0)%Q by reflexivity. now apply Qplus_le_compat.
Qed.

(** What the code computes, over the sums as the specification words them. *)
Lemma monthlyIncomeArray_sum (now : Z) (tx : list A) :
  monthlyIncomeArray now tx = Math_round (inflow (since_start now) tx / 3).
Proof using Type.
  unfold monthlyIncomeArray, Math_round, inflow, since_start.
  apply Qfloor_comp. rewrite fold_left_Qplus_Qsum, Qplus_0_l. reflexivity.
Qed.

Lemma monthlyBaselineSpendArray_sum (now : Z) (tx : list A) :
  monthlyBaselineSpendArray now tx
  = Z.abs (Math_round (outflow (since_start now) tx / 3)).
Proof using Type.
  unfold monthlyBaselineSpendArray, Math_round, outflow, since_start.
  f_equal. apply Qfloor_comp. rewrite fold_left_Qplus_Qsum, Qplus_0_l. reflexivity.
Qed.






End MetricsFacts.

(** The worked example of the specification: payroll 1900, rent 1600 and a
    bill of 60 within the window. *)
Example metrics_example :
  monthlyIncomeArray Sample.today Sample.ledger = 633%Z
  /\ monthlyBaselineSpendArray Sample.today Sample.ledger = 553%Z.
Proof. split; vm_compute; reflexivity. Qed.




(** ** Routing, and the summary stage by stage *)

Lemma requireAuth_next w req s :
  userId_of req <> "" -> requireAuth w req s = (Fulfilled Next, s).
Proof.
  intros Hu. unfold requireAuth. rewrite bool_decide_false by assumption.
  reflexivity.
Qed.

Lemma log_log s a b : log (log s a) b = log s (a ++ b).
Proof. unfold log; simpl. now rewrite app_assoc. Qed.

Lemma credit_guardrails_run w uid s :
  credit_guardrails w uid s
  = (Fulfilled (guardrails_value w uid), log s (guardrails_events w uid)).
Proof.
  unfold credit_guardrails, guardrails_value, guardrails_events, try_catch,
    findCreditAccount, post, await, bind, emit, eval, ret; simpl.
  destruct (credit_account_of w uid) as [acct|e]; simpl; [|reflexivity].
  destruct (upstream w (CreditRepayment (guardrails_payload acct))) as [data|e];
    simpl; unfold log; simpl; rewrite <- ?app_assoc; simpl; [|reflexivity].
  destruct (js_get data "guardrails"); reflexivity.
Qed.

Lemma weekly_narrative_run w r s :
  weekly_narrative w r s
  = (Fulfilled (narrative_value w r), log s (narrative_events w r)).
Proof.
  unfold weekly_narrative, narrative_value, narrative_events, try_catch,
    post, await, bind, emit, eval, ret.
  destruct (narrative_metrics r) as [m|e]; simpl.
  2:{ unfold log. rewrite app_nil_r. now destruct s. }
  destruct (upstream w (Narrative (JObj [("metrics", m)]))) as [data|e];
    simpl; unfold log; simpl; rewrite <- ?app_assoc; simpl; [|reflexivity].
  destruct (js_get data "narrative"); reflexivity.
Qed.

Lemma summary_reduce_run w uid s txns :
  transactions_of w uid = Fulfilled txns ->
  summary_reduce w uid s
  = match group_value w (norm_of w txns) with
    | Rejected e => (Rejected e, log s (group_events w uid (norm_of w txns)))
    | Fulfilled g =>
        (Fulfilled (reduced_of w uid (norm_of w txns) g),
         log s (group_events w uid (norm_of w txns) ++ guardrails_events w uid))
    end.
Proof.
  intros Htx. unfold summary_reduce, dbTransactions.
  unfold bind at 1. unfold bind at 1. unfold emit at 1. unfold eval at 1.
  rewrite Htx. fold (norm_of w txns). set (norm := norm_of w txns).
  unfold post, allSettled3, reduce_branch.
  unfold group_value, branch_value, group_events, log.
  unfold bind, emit, eval, ret; simpl.
  rewrite <- !app_assoc; simpl.
  destruct (upstream w (DetectSubscriptions norm)) as [d1|e1];
  destruct (upstream w (SpendInsights norm)) as [d2|e2];
  destruct (upstream w (SpendMovers norm)) as [d3|e3]; simpl;
  repeat match goal with
  | |- context [js_get ?d ?k] => destruct (js_get d k); simpl
  end;
  try reflexivity.
  all: rewrite credit_guardrails_run; unfold log; simpl; rewrite <- ?app_assoc; reflexivity.
Qed.



Lemma dispatch_skip r rest m path w req :
  bool_decide (route_method r = m) && String.eqb (route_path r) path = false ->
  dispatch (r :: rest) m path w req = dispatch rest m path w req.
Proof. intros Hno. simpl. now rewrite Hno. Qed.

Lemma dispatch_here r rest m path w req :
  bool_decide (route_method r = m) && String.eqb (route_path r) path = true ->
  dispatch (r :: rest) m path w req
  = bind (run_chain (route_chain r) w req)
      (fun st => match st with
                 | Next => dispatch rest m path w req
                 | Done => ret Done
                 end).
Proof. intros Hyes. simpl. now rewrite Hyes. Qed.

Lemma guarded (h : Handler) w req s :
  userId_of req <> "" -> run_chain [requireAuth; h] w req s = h w req s.
Proof.
  intros Hu. simpl. unfold bind at 1. rewrite requireAuth_next by assumption.
  unfold bind. destruct (h w req s) as [[[]|e] s']; reflexivity.
Qed.

Lemma unguarded (h : Handler) w req s :
  userId_of req = "" ->
  run_chain [requireAuth; h] w req s
  = (Fulfilled Done, responded 401 (JObj [("error", JStr "auth")]) s).
Proof.
  intros Hu. simpl. unfold bind at 1. unfold requireAuth.
  rewrite bool_decide_true by assumption. reflexivity.
Qed.

Ltac route :=
  unfold getDashboardSummary, forecastUntouchable, simulateAndExplainCredit,
    assessInsurance, serve, app;
  rewrite ?dispatch_skip by reflexivity;
  rewrite dispatch_here by reflexivity;
  cbn [route_chain].

Lemma serve_summary w req db :
  userId_of req <> "" ->
  getDashboardSummary w req db = dashboard_summary w req (initial db).
Proof.
  intros Hu. route. unfold bind at 1. rewrite guarded by assumption.
  destruct (dashboard_summary w req (initial db)) as [[[]|e] s']; reflexivity.
Qed.



Lemma dashboard_summary_run w req s txns :
  transactions_of w (userId_of req) = Fulfilled txns ->
  dashboard_summary w req s = (Fulfilled Done, summary_state w (userId_of req) txns s).
Proof.
  intros Htx. unfold dashboard_summary, summary_state.
  unfold bind at 1. unfold try_catch. unfold bind at 1.
  rewrite (summary_reduce_run _ _ _ _ Htx).
  destruct (group_value w (norm_of w txns)) as [g|e]; [|reflexivity].
  cbv zeta. unfold bind at 1. rewrite weekly_narrative_run.
  unfold res_json, res_status_json, responded. rewrite log_log, <- app_assoc.
  reflexivity.
Qed.

Lemma dashboard_summary_ledger_down w req s e :
  transactions_of w (userId_of req) = Rejected e ->
  dashboard_summary w req s
  = (Fulfilled Done,
     responded 500 (summary_failed e) (log s [ReadTransactions (userId_of req)])).
Proof.
  intros Htx. unfold dashboard_summary, summary_reduce, dbTransactions.
  unfold bind at 1. unfold try_catch. unfold bind at 1. unfold bind at 1.
  unfold bind at 1. unfold emit at 1. unfold eval at 1. rewrite Htx. reflexivity.
Qed.

Lemma serve_summary_unauthenticated w req db :
  userId_of req = "" ->
  getDashboardSummary w req db
  = (Fulfilled Done, responded 401 (JObj [("error", JStr "auth")]) (initial db)).
Proof.
  intros Hu. route. unfold bind at 1. now rewrite unguarded by assumption.
Qed.

(** Fields of a serialized object. *)
Lemma json_wire_obj fs : json_wire (JObj fs) = JObj (wire_fields fs).
Proof. reflexivity. Qed.

Lemma assoc_absent k fs : k ∉ map fst fs -> assoc k fs = None.
Proof.
  induction fs as [|[k' v] fs IH]; simpl; [reflexivity|].
  intros Hk. apply not_elem_of_cons in Hk as [Hne Hk].
  destruct (String.eqb_spec k k'); [contradiction|]. now apply IH.
Qed.

Lemma assoc_wire_fields k fs :
  NoDup (map fst fs) ->
  assoc k (wire_fields fs)
  = match assoc k fs with
    | Some JUndefined | None => None
    | Some v => Some (json_wire v)
    end.
Proof.
  induction fs as [|[k' v] fs IH]; simpl; [reflexivity|].
  intros Hnd. apply NoDup_cons in Hnd as [Hk' Hnd].
  destruct (String.eqb_spec k k') as [->|Hne].
  - destruct v; simpl; rewrite ?String.eqb_refl; try reflexivity.
    rewrite (IH Hnd), (assoc_absent _ _ Hk'). reflexivity.
  - destruct v; simpl;
      try (destruct (String.eqb_spec k k'); [contradiction|]); now apply IH.
Qed.

Lemma composite_field k r n :
  field k (json_wire (composite r n))
  = match assoc k (js_spread (composite r n)) with
    | Some JUndefined | None => None
    | Some v => Some (json_wire v)
    end.
Proof.
  unfold composite. rewrite json_wire_obj. unfold field, js_spread.
  apply assoc_wire_fields.
  apply (bool_decide_unpack _). vm_compute. reflexivity.
Qed.

Lemma js_get_defined v k : nullish v = false -> exists x, js_get v k = Fulfilled x.
Proof. destruct v; simpl; intros Hn; try discriminate; eauto. Qed.





(** ** The order of events in a run of the summary *)

Lemma summary_events w req db txns :
  userId_of req <> "" ->
  transactions_of w (userId_of req) = Fulfilled txns ->
  events (getDashboardSummary w req db)
  = group_events w (userId_of req) (norm_of w txns)
    ++ match group_value w (norm_of w txns) with
       | Rejected _ => []
       | Fulfilled g =>
           guardrails_events w (userId_of req)
           ++ narrative_events w (reduced_of w (userId_of req) (norm_of w txns) g)
       end.
Proof.
  intros Hu Htx. rewrite serve_summary by assumption.
  rewrite (dashboard_summary_run w req _ txns Htx).
  unfold events, summary_state; cbn [snd].
  destruct (group_value w (norm_of w txns)); cbn [trace responded log initial];
    rewrite ?app_nil_r; reflexivity.
Qed.

(** Where an event with property [P] can stand in a log that starts with a
    part free of [P]. *)
Lemma split_after_prefix {A} (P : A -> Prop) (G rest pre : list A) x post :
  Forall (fun y => ~ P y) G -> P x ->
  G ++ rest = pre ++ x :: post ->
  exists pre', pre = G ++ pre' /\ rest = pre' ++ x :: post.
Proof.
  revert pre. induction G as [|g G IH]; intros pre HG Hx Heq.
  - exists pre. split; [reflexivity | exact Heq].
  - apply Forall_cons in HG as [Hg HG].
    destruct pre as [|p pre]; simpl in Heq.
    + injection Heq as -> _. contradiction.
    + injection Heq as -> Heq.
      destruct (IH pre HG Hx Heq) as (pre' & -> & Hrest).
      exists pre'. split; [reflexivity | exact Hrest].
Qed.


Lemma group_events_issue_free w uid norm p :
  in_group p = false ->
  Forall (fun e => ~ is_issue_of p e) (group_events w uid norm).
Proof.
  intros Hp. unfold group_events.
  repeat apply Forall_cons_2; try apply Forall_nil_2; simpl; try tauto;
    intros <-; discriminate.
Qed.


Lemma settled_app p tr tr' : settled p tr = true -> settled p (tr ++ tr') = true.
Proof. unfold settled. rewrite existsb_app. now intros ->. Qed.

Lemma group_events_settled w uid norm p :
  in_group p = true -> settled p (group_events w uid norm) = true.
Proof. destruct p; intros Hp; try discriminate; reflexivity. Qed.


(** C7, as worded, fails on the code: with every provider healthy, the
    guardrails call goes out only after the handler has resumed from the
    join of the other three, so the four calls are not issued without
    waiting for each other; the three calls of the group are. *)
Lemma guardrails_not_in_fan_out :
  let run := getDashboardSummary (Sample.world Sample.healthy) Sample.user ∅ in
  issued_without_waiting [Subscriptions; Spikes; Movers; Repayment] (events run)
  = false
  /\ issue_index Repayment (events run) = Some 8%nat
  /\ settle_index Subscriptions (events run) = Some 4%nat.
Proof. vm_compute. repeat split; reflexivity. Qed.

(** C7, amended.  The three calls of the group (subscription detection,
    spend-spike detection, category movers) are issued one after the other
    before the handler waits for any of them, and the handler resumes with
    the outcome of all three, whatever these outcomes are; nothing of the
    group happens afterwards, and a guardrails call is issued only once the
    three outcomes have been observed. *)
Theorem group_joined_before_guardrails w req db txns :
  userId_of req <> "" ->
  transactions_of w (userId_of req) = Fulfilled txns ->
  let run := getDashboardSummary w req db in
  let norm := norm_of w txns in
  exists rest,
    events run
    = [ReadTransactions (userId_of req);
       Issue (DetectSubscriptions norm);
       Issue (SpendInsights norm);
       Issue (SpendMovers norm);
       Settle (DetectSubscriptions norm) (upstream w (DetectSubscriptions norm));
       Settle (SpendInsights norm) (upstream w (SpendInsights norm));
       Settle (SpendMovers norm) (upstream w (SpendMovers norm))] ++ rest
    /\ issued_without_waiting [Subscriptions; Spikes; Movers] (events run) = true
    /\ (forall p, in_group p = true ->
                  issued p rest = false /\ settled p rest = false)
    /\ (forall pre c post,
          events run = pre ++ Issue c :: post ->
          provider_of c = Repayment ->
          settled Subscriptions pre = true
          /\ settled Spikes pre = true
          /\ settled Movers pre = true).
Proof.
  intros Hu Htx run norm. subst run.
  rewrite (summary_events w req db txns Hu Htx). fold norm.
  set (rest := match group_value w norm with
               | Rejected _ => []
               | Fulfilled g => _
               end).
  exists rest. split; [reflexivity|]. split; [reflexivity|]. split.
  - intros p Hp. subst rest.
    destruct (group_value w norm) as [g|e]; [|split; reflexivity].
    unfold guardrails_events, narrative_events.
    destruct (credit_account_of w (userId_of req));
      destruct (narrative_metrics _);
      destruct p; try discriminate; split; reflexivity.
  - intros pre c post Hsplit Hc.
    destruct (split_after_prefix (is_issue_of Repayment)
                (group_events w (userId_of req) norm) rest pre (Issue c) post)
      as (pre' & -> & _).
    + now apply group_events_issue_free.
    + exact Hc.
    + exact Hsplit.
    + repeat split; apply settled_app, group_events_settled; reflexivity.
Qed.

Lemma group_joined_before_guardrails_witness :
  exists rest,
    events (getDashboardSummary (Sample.world Sample.down) Sample.user ∅)
    = group_events (Sample.world Sample.down) "u1"
        (norm_of (Sample.world Sample.down) Sample.ledger) ++ rest
    /\ issued_without_waiting [Subscriptions; Spikes; Movers]
         (events (getDashboardSummary (Sample.world Sample.down) Sample.user ∅))
       = true.
Proof.
  destruct (group_joined_before_guardrails (Sample.world Sample.down)
              Sample.user ∅ Sample.ledger) as (rest & Hev & Hfan & _).
  - discriminate.
  - reflexivity.
  - exists rest. split; [exact Hev | exact Hfan].
Defined.




(** With no spike, the category sent to the narrative provider is null. *)
Example no_spike_category utilization count (income baseline : Z) :
  js_first (JArr []) = Fulfilled JUndefined
  /\ field "top_spike_category"
       (metrics_object income baseline utilization count JUndefined)
     = Some JNull.
Proof. split; reflexivity. Qed.

(** ** The credit simulation with its explanation *)

Lemma serve_simulate w req db :
  userId_of req <> "" ->
  simulateAndExplainCredit w req db = credit_simulate w req (initial db).
Proof.
  intros Hu. route. unfold bind at 1. rewrite guarded by assumption.
  destruct (credit_simulate w req (initial db)) as [[[]|e] s']; reflexivity.
Qed.

Lemma serve_simulate_unauthenticated w req db :
  userId_of req = "" ->
  simulateAndExplainCredit w req db
  = (Fulfilled Done, responded 401 (JObj [("error", JStr "auth")]) (initial db)).
Proof.
  intros Hu. route. unfold bind at 1. now rewrite unguarded by assumption.
Qed.

Lemma js_get_nullish v k : nullish v = true -> exists e, js_get v k = Rejected e.
Proof. destruct v; intros Hn; try discriminate; simpl; eauto. Qed.

Lemma js_get_opt_defined v k : nullish v = false -> js_get v k = Fulfilled (js_get_opt v k).
Proof.
  intros Hn. unfold js_get_opt.
  destruct (js_get_defined v k Hn) as [x ->]. reflexivity.
Qed.

Lemma credit_simulate_run w req s :
  credit_simulate w req s = (Fulfilled Done, simulate_state w (req_body req) s).
Proof.
  unfold credit_simulate, simulate_state.
  destruct (nullish (req_body req)) eqn:Hn.
  - destruct (js_get_nullish _ "balance" Hn) as [e He].
    unfold bind at 1. unfold try_catch at 1. unfold bind at 1. unfold eval at 1.
    rewrite He. reflexivity.
  - unfold bind at 1. unfold try_catch at 1.
    unfold bind at 1. unfold eval at 1. rewrite (js_get_opt_defined _ _ Hn).
    unfold bind at 1. unfold eval at 1. rewrite (js_get_opt_defined _ _ Hn).
    unfold bind at 1. unfold eval at 1. rewrite (js_get_opt_defined _ _ Hn).
    unfold bind at 1. unfold eval at 1. rewrite (js_get_opt_defined _ _ Hn).
    unfold bind at 1. unfold eval at 1. rewrite (js_get_opt_defined _ _ Hn).
    fold (simulate_call (req_body req)). set (c := simulate_call (req_body req)).
    unfold post, await, try_catch, bind, emit, eval, ret, res_json,
      res_status_json, responded, log; cbn [fst snd trace budgets response].
    destruct (upstream w c) as [sim|e]; cbn [fst snd trace budgets response];
      rewrite <- ?app_assoc; [|reflexivity].
    destruct (explain_payload _ _ sim) as [p|e];
      cbn [fst snd trace budgets response]; rewrite <- ?app_assoc, ?app_nil_r;
      [|reflexivity].
    destruct (upstream w (ExplainCredit p)) as [ex|e];
      cbn [fst snd trace budgets response]; rewrite <- ?app_assoc; [|reflexivity].
    destruct (js_get ex "explanation"); reflexivity.
Qed.

Lemma assoc_wire_obj_set k v fs :
  v <> JUndefined ->
  assoc k (wire_fields (obj_set k v fs)) = Some (json_wire v).
Proof.
  intros Hv. induction fs as [|[k' v'] fs IH]; simpl.
  - destruct v; try contradiction; simpl; now rewrite String.eqb_refl.
  - destruct (String.eqb_spec k k') as [->|Hne].
    + destruct v; try contradiction; simpl; now rewrite String.eqb_refl.
    + destruct v'; simpl;
        try (destruct (String.eqb_spec k k'); [contradiction|]); exact IH.
Qed.

Lemma assoc_wire_obj_set_other k k0 v fs :
  k <> k0 ->
  assoc k (wire_fields (obj_set k0 v fs)) = assoc k (wire_fields fs).
Proof.
  intros Hk. induction fs as [|[k' v'] fs IH]; simpl.
  - destruct v; simpl; try reflexivity;
      destruct (String.eqb_spec k k0); congruence.
  - destruct (String.eqb_spec k0 k') as [->|Hne].
    + destruct v, v'; simpl; try reflexivity;
        destruct (String.eqb_spec k k'); congruence.
    + destruct v'; simpl; try exact IH;
        destruct (String.eqb_spec k k'); congruence.
Qed.

Lemma answer_fields (sim : JsVal) :
  let b := json_wire (JObj (obj_set "explanation" JNull (js_spread sim))) in
  field "explanation" b = Some JNull
  /\ forall k, k <> "explanation" ->
               field k b = field k (json_wire (JObj (js_spread sim))).
Proof.
  cbv zeta. rewrite !json_wire_obj. unfold field. split.
  - now apply assoc_wire_obj_set.
  - intros k Hk. now apply assoc_wire_obj_set_other.
Qed.



(** ** The insurance assessment *)

Lemma insurance_assess_run w req s :
  insurance_assess w req s
  = (Fulfilled Done,
     responded 200
       (JObj [("suggestions", suggestions_of (upstream w (InsuranceNudge (req_body req))))])
       (log s [Issue (InsuranceNudge (req_body req));
               Settle (InsuranceNudge (req_body req))
                 (upstream w (InsuranceNudge (req_body req)))])).
Proof.
  unfold insurance_assess, suggestions_of, post, await, try_catch, bind, emit,
    eval, ret, res_json, res_status_json, responded, log;
    cbn [fst snd trace budgets response].
  destruct (upstream w (InsuranceNudge (req_body req))) as [data|e];
    cbn [fst snd trace budgets response]; rewrite <- ?app_assoc; reflexivity.
Qed.

(** The first registration answers every request; the pass-through
    registered later under the same path is never reached. *)
Lemma serve_insurance w req db :
  userId_of req <> "" ->
  assessInsurance w req db = insurance_assess w req (initial db).
Proof.
  intros Hu. route. unfold bind at 1. rewrite guarded by assumption.
  rewrite insurance_assess_run. reflexivity.
Qed.

Lemma suggestions_of_failed o :
  insurance_upstream_failed o = true -> suggestions_of o = JArr [].
Proof.
  destruct o as [data|e]; simpl; [|reflexivity].
  destruct (is_array (js_get_opt data "suggestions")); [discriminate|reflexivity].
Qed.

Lemma suggestions_of_array o : exists items, suggestions_of o = JArr items.
Proof.
  destruct o as [data|e]; simpl; [|eauto].
  destruct (js_get_opt data "suggestions"); simpl; eauto.
Qed.

(** C8.  For a request that passed [requireAuth], /insurance/assess always
    answers 200 with a body [{suggestions: [...]}]; when the upstream call
    fails (a timeout, a connection failure, a non-2xx status) or answers
    with a body that has no suggestions array, the body is
    [{suggestions: []}].  One upstream call is made. *)
Theorem insurance_never_fails w req db :
  userId_of req <> "" ->
  let run := assessInsurance w req db in
  let c := InsuranceNudge (req_body req) in
  (exists items,
     reply run
     = Some {| status := 200; body := json_wire (JObj [("suggestions", JArr items)]) |})
  /\ (insurance_upstream_failed (upstream w c) = true ->
      reply run
      = Some {| status := 200; body := JObj [("suggestions", JArr [])] |})
  /\ events run = [Issue c; Settle c (upstream w c)].
Proof.
  intros Hu run c. subst run c.
  rewrite serve_insurance, insurance_assess_run by assumption.
  unfold reply, events; cbn [snd responded log trace response initial app].
  split; [|split; [|reflexivity]].
  - destruct (suggestions_of_array (upstream w (InsuranceNudge (req_body req))))
      as [items ->]. now exists items.
  - intros Hf. now rewrite (suggestions_of_failed _ Hf).
Qed.

Lemma insurance_never_fails_witness :
  reply (assessInsurance (Sample.world Sample.down) Sample.user ∅)
  = Some {| status := 200; body := JObj [("suggestions", JArr [])] |}.
Proof.
  apply (insurance_never_fails (Sample.world Sample.down) Sample.user ∅).
  - discriminate.
  - reflexivity.
Defined.

(** ** The untouchable forecast *)

Lemma budgets_untouchable_run w req s :
  budgets_untouchable w req s = forecast_run w req s.
Proof.
  unfold budgets_untouchable, forecast_run.
  unfold bind at 1. unfold eval at 1.
  destruct (js_get (req_body req) "percent") as [percent|e] eqn:Hp; [|reflexivity].
  assert (Hn : nullish (req_body req) = false).
  { destruct (req_body req); try reflexivity; discriminate. }
  assert (Hpo : js_get_opt (req_body req) "percent" = percent).
  { unfold js_get_opt. now rewrite Hp. }
  unfold bind at 1. unfold eval at 1. rewrite (js_get_opt_defined _ _ Hn).
  unfold dbTransactions. unfold bind at 1. unfold bind at 1.
  unfold emit at 1. unfold eval at 1.
  destruct (transactions_of w (userId_of req)) as [txns|e]; [|reflexivity].
  unfold forecast_call. rewrite Hpo.
  set (c := UntouchableForecast _).
  unfold post, await, upsertBudget, bind, emit, eval, ret, res_json,
    res_status_json, responded, persisted, log;
    cbn [fst snd trace budgets response].
  destruct (upstream w c) as [data|e]; cbn [fst snd trace budgets response];
    rewrite <- ?app_assoc; [|reflexivity].
  destruct percent; reflexivity.
Qed.

Lemma serve_forecast w req db :
  userId_of req <> "" ->
  forecastUntouchable w req db = forecast_run w req (initial db).
Proof.
  intros Hu. route. unfold bind at 1. rewrite guarded by assumption.
  rewrite budgets_untouchable_run.
  destruct (forecast_run w req (initial db)) as [[[]|e] s']; reflexivity.
Qed.

Lemma serve_forecast_unauthenticated w req db :
  userId_of req = "" ->
  forecastUntouchable w req db
  = (Fulfilled Done, responded 401 (JObj [("error", JStr "auth")]) (initial db)).
Proof.
  intros Hu. route. unfold bind at 1. now rewrite unguarded by assumption.
Qed.

(** C10.  In every run of /budgets/untouchable, a write of the Budget table
    comes after the handler has resumed with a 2xx answer of the forecast
    call; and if the forecast call fails, no write is made and the Budget
    table is what it was. *)
Theorem budget_written_after_forecast w req db :
  let run := forecastUntouchable w req db in
  (failed Forecaster (events run) = true ->
   budgets (snd run) = db /\ upserted (events run) = false)
  /\ (forall pre userId pct post,
        events run = pre ++ UpsertBudget userId pct :: post ->
        succeeded Forecaster pre = true).
Proof.
  cbv zeta.
  destruct (decide (userId_of req = "")) as [Hu|Hu].
  { rewrite serve_forecast_unauthenticated by assumption.
    split; [discriminate|]. intros pre u pct post Hsplit.
    destruct pre; discriminate. }
  rewrite serve_forecast by assumption.
  unfold forecast_run, events.
  destruct (js_get (req_body req) "percent") as [percent|e].
  2:{ split; [discriminate|]. intros pre u pct post Hsplit.
      destruct pre; discriminate. }
  destruct (transactions_of w (userId_of req)) as [txns|e].
  2:{ split; [discriminate|]. intros pre u pct post Hsplit.
      destruct pre as [|? [|? ?]]; discriminate. }
  cbv zeta. set (c := forecast_call w (req_body req) txns).
  destruct (upstream w c) as [data|e].
  2:{ split; [intros _; split; reflexivity|]. intros pre u pct post Hsplit.
      destruct pre as [|? [|? [|? [|? ?]]]]; discriminate. }
  assert (Hafter : forall pre u pct post,
             [ReadTransactions (userId_of req); Issue c; Settle c (Fulfilled data);
              UpsertBudget (userId_of req) percent]
             = pre ++ UpsertBudget u pct :: post ->
             succeeded Forecaster pre = true).
  { intros pre u pct post Hsplit.
    destruct pre as [|e1 [|e2 [|e3 [|e4 pre]]]]; try discriminate.
    - injection Hsplit as <- <- <- _. reflexivity.
    - injection Hsplit as _ _ _ Hsplit. destruct pre; discriminate. }
  destruct percent; (split; [discriminate | exact Hafter]).
Qed.

Lemma budget_written_after_forecast_witness :
  budgets (snd (forecastUntouchable (Sample.world Sample.down)
                  Sample.forecast_request {["u1" := 1 # 10]}))
  = {["u1" := 1 # 10]}
  /\ upserted (events (forecastUntouchable (Sample.world Sample.down)
                         Sample.forecast_request {["u1" := 1 # 10]})) = false.
Proof.
  apply (proj1 (budget_written_after_forecast (Sample.world Sample.down)
                  Sample.forecast_request {["u1" := 1 # 10]})).
  vm_compute. reflexivity.
Defined.

(** A forecast that succeeds is persisted: the write is reached. *)
Example forecast_persisted :
  budgets (snd (forecastUntouchable (Sample.world Sample.healthy)
                  Sample.forecast_request {["u1" := 1 # 10]})) !! "u1"
  = Some (2 # 10).
Proof. vm_compute. reflexivity. Qed.

(** C9, as worded, fails on the code: a request without [percent] is not
    refused; the forecast provider is called and no client error is
    answered. *)
Lemma missing_percent_reaches_provider :
  let run := forecastUntouchable (Sample.world Sample.healthy) Sample.user ∅ in
  js_get (req_body Sample.user) "percent" = Fulfilled JUndefined
  /\ issued Forecaster (events run) = true
  /\ client_error (reply run) = false.
Proof. vm_compute. repeat split; reflexivity. Qed.

(** C9, amended.  /budgets/untouchable does not validate its input: for a
    request without [percent] whose ledger read succeeds, the forecast
    provider is called, with a body that has no [untouchable_pct]; no client
    error is answered, and the Budget table is left as it was. *)
Theorem missing_percent_unvalidated w req db txns :
  userId_of req <> "" ->
  js_get (req_body req) "percent" = Fulfilled JUndefined ->
  transactions_of w (userId_of req) = Fulfilled txns ->
  let run := forecastUntouchable w req db in
  exists payload rest,
    events run
    = ReadTransactions (userId_of req) :: Issue (UntouchableForecast payload) :: rest
    /\ field "untouchable_pct" (json_wire payload) = None
    /\ client_error (reply run) = false
    /\ budgets (snd run) = db.
Proof.
  intros Hu Hp Htx run. subst run.
  rewrite serve_forecast by assumption.
  unfold forecast_run, events, reply. rewrite Hp, Htx. cbv zeta.
  assert (Hwire : field "untouchable_pct"
                    (json_wire
                       (JObj [("monthly_income",
                               num (monthlyIncomeArray (now w) (orFixture w txns)));
                              ("monthly_baseline_spend",
                               num (monthlyBaselineSpendArray (now w) (orFixture w txns)));
                              ("untouchable_pct", js_get_opt (req_body req) "percent");
                              ("starting_savings",
                               or_default (js_get_opt (req_body req) "starting_savings")
                                 (JNum 350));
                              ("months", JNum 6)])) = None).
  { rewrite json_wire_obj. unfold field. rewrite assoc_wire_fields.
    - unfold js_get_opt. rewrite Hp. reflexivity.
    - apply (bool_decide_unpack _). vm_compute. reflexivity. }
  unfold forecast_call.
  destruct (upstream w _) as [data|e]; eexists _, _;
    (split; [reflexivity|]); (split; [exact Hwire|]); split; reflexivity.
Qed.

Lemma missing_percent_unvalidated_witness :
  exists payload rest,
    events (forecastUntouchable (Sample.world Sample.healthy) Sample.user ∅)
    = ReadTransactions "u1" :: Issue (UntouchableForecast payload) :: rest
    /\ field "untouchable_pct" (json_wire payload) = None.
Proof.
  destruct (missing_percent_unvalidated (Sample.world Sample.healthy)
              Sample.user ∅ Sample.ledger)
    as (payload & rest & Hev & Hwire & _).
  - discriminate.
  - reflexivity.
  - reflexivity.
  - exists payload, rest. split; assumption.
Defined.

(** ** The summary under malformed 2xx answers *)

(** C1, on the failing input: the ledger read succeeds and subscription
    detection answers 2xx with the body [{}].  The response is a 200 whose
    body has six of the seven keys; [subscriptions] is missing. *)
Theorem summary_drops_missing_field :
  let w := Sample.world (Sample.subscriptions_answer (JObj [])) in
  let run := getDashboardSummary w Sample.user ∅ in
  transactions_of w "u1" = Fulfilled Sample.ledger
  /\ exists b,
       reply run = Some {| status := 200; body := b |}
       /\ has_key "subscriptions" b = false
       /\ forallb (fun k => has_key k b)
            ["income"; "baseline"; "credit"; "spikes"; "movers"; "weekly_narrative"]
          = true.
Proof.
  cbv zeta. split; [reflexivity|]. eexists. split; [vm_compute; reflexivity|].
  split; vm_compute; reflexivity.
Qed.

(** C5, on the failing input: the ledger read succeeds and subscription
    detection answers 2xx with the body [null].  The response is the 500
    error payload of the fatal handler. *)
Theorem summary_fails_on_null_body :
  let w := Sample.world (Sample.subscriptions_answer JNull) in
  let run := getDashboardSummary w Sample.user ∅ in
  transactions_of w "u1" = Fulfilled Sample.ledger
  /\ reply run
     = Some {| status := 500;
               body := JObj [("error", JStr "summary_failed");
                             ("detail",
                              JStr "Cannot read properties of null (reading 'subscriptions')")] |}.
Proof. cbv zeta. split; [reflexivity | vm_compute; reflexivity]. Qed.

(** The ledger read failing gives the same kind of response. *)
Lemma summary_ledger_failure w req db e :
  userId_of req <> "" ->
  transactions_of w (userId_of req) = Rejected e ->
  reply (getDashboardSummary w req db)
  = Some {| status := 500; body := json_wire (summary_failed e) |}.
Proof.
  intros Hu Htx. rewrite serve_summary by assumption.
  now rewrite (dashboard_summary_ledger_down w req _ e Htx).
Qed.

(** * Further properties of the handlers *)

(** ** The authentication gate and the routes *)

(** X1.  Whatever route of the application a request without a session
    user is sent to, [requireAuth] answers 401 with [{error: "auth"}] before
    the handler runs: the database is not read, no upstream call is made and
    the Budget table is left as it was. *)
Theorem unauthenticated_is_refused r w req db :
  In r app ->
  userId_of req = "" ->
  let run := serve (route_method r) (route_path r) w req db in
  reply run = Some unauthorized
  /\ events run = []
  /\ budgets (snd run) = db.
Proof.
  intros Hr Hu. cbv zeta.
  assert (Hrun : serve (route_method r) (route_path r) w req db
                 = (Fulfilled Done,
                    responded 401 (JObj [("error", JStr "auth")]) (initial db))).
  { unfold serve, app in *.
    destruct Hr as [<-|[<-|[<-|[<-|[<-|[]]]]]]; cbn [route_method route_path];
      rewrite ?dispatch_skip by reflexivity;
      rewrite dispatch_here by reflexivity;
      cbn [route_chain]; unfold bind at 1; now rewrite unguarded by assumption. }
  rewrite Hrun. repeat split.
Qed.

Lemma unauthenticated_is_refused_witness :
  reply (getDashboardSummary (Sample.world Sample.healthy)
           {| session_userId := None; req_body := JObj [] |} ∅)
  = Some unauthorized.
Proof.
  apply (unauthenticated_is_refused
           {| route_method := GET; route_path := "/dashboard/summary";
              route_chain := [requireAuth; dashboard_summary] |}
           (Sample.world Sample.healthy)
           {| session_userId := None; req_body := JObj [] |} ∅).
  - right. left. reflexivity.
  - reflexivity.
Defined.

Lemma first_registration_serves (rest : list Route) w req s :
  dispatch ({| route_method := POST; route_path := "/insurance/assess";
               route_chain := [requireAuth; insurance_assess] |} :: rest)
    POST "/insurance/assess" w req s
  = run_chain [requireAuth; insurance_assess] w req s.
Proof.
  rewrite dispatch_here by reflexivity. cbn [route_chain]. unfold bind at 1.
  destruct (decide (userId_of req = "")) as [Hu|Hu].
  - rewrite unguarded by assumption. reflexivity.
  - rewrite guarded, insurance_assess_run by assumption. reflexivity.
Qed.

(** X2.  The second registration of POST /insurance/assess (the
    pass-through at the end of the file) is dead: whatever routes are
    registered after the first four, a request to that path is served by the
    first registration alone. *)
Theorem later_registrations_shadowed (later : list Route) w req db :
  dispatch (firstn 4 app ++ later) POST "/insurance/assess" w req (initial db)
  = dispatch (firstn 1 app) POST "/insurance/assess" w req (initial db).
Proof.
  unfold app; cbn [firstn Datatypes.app]. now rewrite !first_registration_serves.
Qed.

(** ** What every run of a handler does and does not do *)

(** The three ways a run of the summary can go. *)
Lemma summary_cases w req db :
  (userId_of req = ""
   /\ getDashboardSummary w req db
      = (Fulfilled Done,
         responded 401 (JObj [("error", JStr "auth")]) (initial db)))
  \/ (exists e,
        transactions_of w (userId_of req) = Rejected e
        /\ getDashboardSummary w req db
           = (Fulfilled Done,
              responded 500 (summary_failed e)
                (log (initial db) [ReadTransactions (userId_of req)])))
  \/ (exists txns,
        userId_of req <> ""
        /\ transactions_of w (userId_of req) = Fulfilled txns
        /\ getDashboardSummary w req db
           = (Fulfilled Done, summary_state w (userId_of req) txns (initial db))).
Proof.
  destruct (decide (userId_of req = "")) as [Hu|Hu].
  - left. split; [assumption|]. now apply serve_summary_unauthenticated.
  - right. rewrite serve_summary by assumption.
    destruct (transactions_of w (userId_of req)) as [txns|e] eqn:Htx.
    + right. exists txns. split; [assumption|]. split; [reflexivity|].
      now apply dashboard_summary_run.
    + left. exists e. split; [reflexivity|].
      now apply dashboard_summary_ledger_down.
Qed.

(** The ways a run of the simulation can go. *)
Lemma simulate_cases w req db :
  (userId_of req = ""
   /\ simulateAndExplainCredit w req db
      = (Fulfilled Done,
         responded 401 (JObj [("error", JStr "auth")]) (initial db)))
  \/ (userId_of req <> ""
      /\ simulateAndExplainCredit w req db
         = (Fulfilled Done, simulate_state w (req_body req) (initial db))).
Proof.
  destruct (decide (userId_of req = "")) as [Hu|Hu].
  - left. split; [assumption|]. now apply serve_simulate_unauthenticated.
  - right. split; [assumption|].
    now rewrite serve_simulate, credit_simulate_run by assumption.
Qed.

Lemma serve_insurance_unauthenticated w req db :
  userId_of req = "" ->
  assessInsurance w req db
  = (Fulfilled Done, responded 401 (JObj [("error", JStr "auth")]) (initial db)).
Proof.
  intros Hu. route. unfold bind at 1. now rewrite unguarded by assumption.
Qed.

(** The state of a run of the summary keeps the Budget table. *)
Lemma summary_state_budgets w uid txns s :
  budgets (summary_state w uid txns s) = budgets s.
Proof. unfold summary_state. now destruct (group_value _ _). Qed.

Lemma summary_state_trace w uid txns s :
  trace (summary_state w uid txns s)
  = trace s ++ group_events w uid (norm_of w txns)
    ++ match group_value w (norm_of w txns) with
       | Rejected _ => []
       | Fulfilled g =>
           guardrails_events w uid
           ++ narrative_events w (reduced_of w uid (norm_of w txns) g)
       end.
Proof.
  unfold summary_state. destruct (group_value _ _); cbn [trace responded log];
    now rewrite ?app_nil_r.
Qed.

Lemma simulate_state_budgets w body s :
  budgets (simulate_state w body s) = budgets s.
Proof.
  unfold simulate_state. destruct (nullish body); [reflexivity|].
  destruct (upstream w (simulate_call body)); [|reflexivity].
  cbv zeta. destruct (explain_payload _ _ _); [|reflexivity].
  now destruct (upstream w (ExplainCredit _)).
Qed.

(** The log a run of the simulation adds. *)
Lemma simulate_state_trace w body s :
  exists tr,
    trace (simulate_state w body s) = trace s ++ tr
    /\ (forall p, issue_count p tr <= 1)
    /\ upserted tr = false
    /\ db_read tr = false.
Proof.
  unfold simulate_state. destruct (nullish body).
  { exists []. rewrite app_nil_r.
    split; [reflexivity|]. split; [intros p; vm_compute; lia|]. split; reflexivity. }
  destruct (upstream w (simulate_call body)) as [sim|e].
  2:{ eexists. split; [reflexivity|].
      split; [intros p; destruct p; vm_compute; lia|]. split; reflexivity. }
  cbv zeta. destruct (explain_payload _ _ sim) as [payload|e].
  2:{ eexists. split; [reflexivity|].
      split; [intros p; destruct p; vm_compute; lia|]. split; reflexivity. }
  destruct (upstream w (ExplainCredit payload)); eexists;
    (split; [reflexivity|]);
    (split; [intros p; destruct p; vm_compute; lia|]); split; reflexivity.
Qed.

(** The log a run of the summary adds after the ledger read succeeded. *)
Lemma summary_log_facts w uid norm (rest : Outcome (JsVal * JsVal * JsVal)) :
  let tr := group_events w uid norm
            ++ match rest with
               | Rejected _ => []
               | Fulfilled g =>
                   guardrails_events w uid
                   ++ narrative_events w (reduced_of w uid norm g)
               end in
  (forall p, issue_count p tr <= 1) /\ upserted tr = false.
Proof.
  cbv zeta. unfold guardrails_events, narrative_events.
  destruct rest as [g|e].
  2:{ split; [intros p; destruct p; vm_compute; lia | reflexivity]. }
  destruct (credit_account_of w uid);
    destruct (narrative_metrics _);
    (split; [intros p; destruct p; vm_compute; lia | reflexivity]).
Qed.

(** X3.  The summary, the credit simulation and the insurance assessment
    only read: in every run, whatever the upstream answers and the request,
    the Budget table at the end is the one at the start and no write of it
    is attempted. *)
Theorem read_only_operations w req db :
  (budgets (snd (getDashboardSummary w req db)) = db
   /\ upserted (events (getDashboardSummary w req db)) = false)
  /\ (budgets (snd (simulateAndExplainCredit w req db)) = db
      /\ upserted (events (simulateAndExplainCredit w req db)) = false)
  /\ (budgets (snd (assessInsurance w req db)) = db
      /\ upserted (events (assessInsurance w req db)) = false).
Proof.
  split; [|split].
  - destruct (summary_cases w req db)
      as [[_ ->]|[(e & _ & ->)|(txns & _ & _ & ->)]];
      unfold events; cbn [snd]; try (split; reflexivity).
    split; [apply summary_state_budgets|].
    rewrite summary_state_trace. cbn [trace initial Datatypes.app].
    apply summary_log_facts.
  - destruct (simulate_cases w req db) as [[_ ->]|[_ ->]];
      unfold events; cbn [snd]; try (split; reflexivity).
    split; [apply simulate_state_budgets|].
    destruct (simulate_state_trace w (req_body req) (initial db))
      as (tr & -> & _ & Hup & _). exact Hup.
  - destruct (decide (userId_of req = "")) as [Hu|Hu].
    + rewrite serve_insurance_unauthenticated by assumption. split; reflexivity.
    + rewrite serve_insurance, insurance_assess_run by assumption.
      split; reflexivity.
Qed.

(** X4.  The summary, the credit simulation and the insurance assessment
    catch every error: in every run the handler ends normally and has
    written a response, with status 200, 401 or 500 for the first two and
    200 or 401 for the insurance assessment. *)
Theorem guarded_handlers_always_answer w req db :
  (fst (getDashboardSummary w req db) = Fulfilled Done
   /\ exists r, reply (getDashboardSummary w req db) = Some r
                /\ In (status r) [200; 401; 500]%Z)
  /\ (fst (simulateAndExplainCredit w req db) = Fulfilled Done
      /\ exists r, reply (simulateAndExplainCredit w req db) = Some r
                   /\ In (status r) [200; 401; 500]%Z)
  /\ (fst (assessInsurance w req db) = Fulfilled Done
      /\ exists r, reply (assessInsurance w req db) = Some r
                   /\ In (status r) [200; 401]%Z).
Proof.
  split; [|split].
  - destruct (summary_cases w req db)
      as [[_ ->]|[(e & _ & ->)|(txns & _ & _ & ->)]];
      (split; [reflexivity|]); unfold reply; cbn [snd].
    + eexists. split; [reflexivity|]. simpl. tauto.
    + eexists. split; [reflexivity|]. simpl. tauto.
    + unfold summary_state. destruct (group_value _ _);
        eexists; (split; [reflexivity|]); simpl; tauto.
  - destruct (simulate_cases w req db) as [[_ ->]|[_ ->]];
      (split; [reflexivity|]); unfold reply; cbn [snd].
    + eexists. split; [reflexivity|]. simpl. tauto.
    + unfold simulate_state. destruct (nullish _).
      { eexists. split; [reflexivity|]. simpl. tauto. }
      destruct (upstream w (simulate_call _)).
      2:{ eexists. split; [reflexivity|]. simpl. tauto. }
      cbv zeta. destruct (explain_payload _ _ _).
      2:{ eexists. split; [reflexivity|]. simpl. tauto. }
      destruct (upstream w (ExplainCredit _));
        eexists; (split; [reflexivity|]); simpl; tauto.
  - destruct (decide (userId_of req = "")) as [Hu|Hu].
    + rewrite serve_insurance_unauthenticated by assumption.
      split; [reflexivity|]. eexists. split; [reflexivity|]. simpl. tauto.
    + rewrite serve_insurance, insurance_assess_run by assumption.
      split; [reflexivity|]. eexists. split; [reflexivity|]. simpl. tauto.
Qed.

(** X5.  /budgets/untouchable catches nothing: for a request that passed
    [requireAuth], either the handler answers 200 or its promise rejects
    and it has written no response at all.  The latter happens whenever the
    forecast call fails, and whenever the ledger read fails (for a request
    with a body, nothing but the read has then been done). *)
Theorem forecast_errors_escape w req db :
  userId_of req <> "" ->
  let run := forecastUntouchable w req db in
  ((exists data, fst run = Fulfilled Done
                 /\ reply run = Some {| status := 200; body := data |})
   \/ (exists e, fst run = Rejected e /\ reply run = None))
  /\ (failed Forecaster (events run) = true -> reply run = None)
  /\ (forall e, nullish (req_body req) = false ->
                transactions_of w (userId_of req) = Rejected e ->
                fst run = Rejected e
                /\ reply run = None
                /\ events run = [ReadTransactions (userId_of req)]).
Proof.
  intros Hu. cbv zeta. rewrite serve_forecast by assumption.
  unfold forecast_run, reply, events.
  destruct (js_get (req_body req) "percent") as [percent|e0] eqn:Hp.
  2:{ split; [right; eexists; split; reflexivity|].
      split; [discriminate|].
      intros e Hn _. rewrite (js_get_opt_defined _ _ Hn) in Hp. discriminate. }
  destruct (transactions_of w (userId_of req)) as [txns|e1].
  2:{ split; [right; eexists; split; reflexivity|].
      split; [discriminate|].
      intros e _ [= <-]. repeat split. }
  cbv zeta. destruct (upstream w (forecast_call w (req_body req) txns)) as [data|e2].
  2:{ split; [right; eexists; split; reflexivity|].
      split; [reflexivity | discriminate]. }
  destruct percent;
    (split; [first [left; eexists; split; reflexivity
                   | right; eexists; split; reflexivity]|]);
    (split; discriminate).
Qed.

Lemma forecast_errors_escape_witness :
  reply (forecastUntouchable (Sample.world Sample.down)
           Sample.forecast_request ∅) = None.
Proof.
  apply (forecast_errors_escape (Sample.world Sample.down)
           Sample.forecast_request ∅).
  - discriminate.
  - vm_compute. reflexivity.
Defined.

(** X6.  No call is retried: in every run of any of the four operations, a
    provider is called at most once. *)
Theorem single_attempt_per_provider w req db p :
  (issue_count p (events (getDashboardSummary w req db)) <= 1)%nat
  /\ (issue_count p (events (simulateAndExplainCredit w req db)) <= 1)%nat
  /\ (issue_count p (events (forecastUntouchable w req db)) <= 1)%nat
  /\ (issue_count p (events (assessInsurance w req db)) <= 1)%nat.
Proof.
  assert (Hnone : (issue_count p [] <= 1)%nat) by (unfold issue_count; simpl; lia).
  split; [|split; [|split]].
  - destruct (summary_cases w req db)
      as [[_ ->]|[(e & _ & ->)|(txns & _ & _ & ->)]]; unfold events; cbn [snd].
    + exact Hnone.
    + unfold issue_count; simpl; lia.
    + rewrite summary_state_trace. cbn [trace initial Datatypes.app].
      apply summary_log_facts.
  - destruct (simulate_cases w req db) as [[_ ->]|[_ ->]];
      unfold events; cbn [snd].
    + exact Hnone.
    + destruct (simulate_state_trace w (req_body req) (initial db))
        as (tr & -> & Hone & _). apply Hone.
  - destruct (decide (userId_of req = "")) as [Hu|Hu].
    + rewrite serve_forecast_unauthenticated by assumption. exact Hnone.
    + rewrite serve_forecast by assumption. unfold forecast_run, events.
      destruct (js_get (req_body req) "percent") as [percent|e0];
        [|exact Hnone].
      destruct (transactions_of w (userId_of req)) as [txns|e1];
        [|unfold issue_count; simpl; lia].
      cbv zeta.
      set (c := forecast_call w (req_body req) txns).
      assert (Hc : provider_of c = Forecaster) by reflexivity.
      clearbody c. destruct c; try discriminate.
      destruct (upstream w _); [destruct percent|]; destruct p;
        unfold issue_count; simpl; lia.
  - destruct (decide (userId_of req = "")) as [Hu|Hu].
    + rewrite serve_insurance_unauthenticated by assumption. exact Hnone.
    + rewrite serve_insurance, insurance_assess_run by assumption.
      destruct p; unfold issue_count; simpl; lia.
Qed.

(** ** More on the summary *)


Lemma truthy_defined v : truthy v = true -> v <> JUndefined.
Proof. intros Hv ->. discriminate. Qed.

(** What a 200 answer of the summary is. *)
Lemma summary_ok_inv w req db b :
  reply (getDashboardSummary w req db) = Some {| status := 200; body := b |} ->
  exists txns g,
    userId_of req <> ""
    /\ transactions_of w (userId_of req) = Fulfilled txns
    /\ group_value w (norm_of w txns) = Fulfilled g
    /\ b = json_wire
             (composite (reduced_of w (userId_of req) (norm_of w txns) g)
                (narrative_value w
                   (reduced_of w (userId_of req) (norm_of w txns) g)))
    /\ events (getDashboardSummary w req db)
       = group_events w (userId_of req) (norm_of w txns)
         ++ guardrails_events w (userId_of req)
         ++ narrative_events w (reduced_of w (userId_of req) (norm_of w txns) g).
Proof.
  destruct (summary_cases w req db)
    as [[_ ->]|[(e & _ & ->)|(txns & Hu & Htx & Hrun)]];
    unfold reply; cbn [snd responded response]; try discriminate.
  rewrite (summary_events w req db txns Hu Htx). rewrite Hrun.
  unfold summary_state; cbn [snd].
  destruct (group_value w (norm_of w txns)) as [g|e] eqn:Hg;
    cbn [responded response]; intros Hb; [|discriminate].
  injection Hb as <-.
  exists txns, g. split; [assumption|]. split; [assumption|].
  split; [exact Hg|]. split; reflexivity.
Qed.



Lemma missing_key_undefined k r n :
  In k ["credit"; "subscriptions"; "spikes"; "movers"] ->
  has_key k (json_wire (composite r n)) = false ->
  assoc k (js_spread (composite r n)) = Some JUndefined.
Proof.
  intros Hk Hmiss.
  assert (Hf : field k (json_wire (composite r n)) = None).
  { unfold has_key in Hmiss. unfold field.
    destruct (json_wire (composite r n)); try reflexivity.
    apply bool_decide_eq_false in Hmiss.
    destruct (assoc k fields); [|reflexivity].
    exfalso. apply Hmiss. eauto. }
  rewrite composite_field in Hf.
  destruct Hk as [<-|[<-|[<-|[<-|[]]]]];
    cbn [js_spread composite assoc String.eqb Ascii.eqb Bool.eqb] in *;
    match goal with
    | H : match ?v with _ => _ end = None |- Some ?v = _ =>
        destruct v; try discriminate; reflexivity
    end.
Qed.

(** X8.  A missing branch silences the narrative: whenever the summary
    answers 200 with a body that lacks [credit], [subscriptions] or [spikes]
    (the provider answered 2xx without the field), the narrative provider
    was not called at all and [weekly_narrative] is "Stable week.". *)
Theorem missing_branch_silences_narrative w req db b :
  reply (getDashboardSummary w req db) = Some {| status := 200; body := b |} ->
  has_key "credit" b && has_key "subscriptions" b && has_key "spikes" b = false ->
  issued NarrativeGen (events (getDashboardSummary w req db)) = false
  /\ field "weekly_narrative" b = Some narrative_fallback.
Proof.
  intros Hok Hmiss.
  destruct (summary_ok_inv w req db b Hok) as (txns & g & _ & _ & _ & -> & ->).
  set (uid := userId_of req) in *. set (norm := norm_of w txns) in *.
  set (r := reduced_of w uid norm g) in *. clearbody r.
  assert (Hm : exists e, narrative_metrics r = Rejected e).
  { unfold narrative_metrics.
    destruct (has_key "credit" _) eqn:Hc.
    2:{ apply missing_key_undefined in Hc; [|simpl; tauto].
        cbn [js_spread composite assoc String.eqb Ascii.eqb Bool.eqb] in Hc.
        injection Hc as ->. simpl. eauto. }
    destruct (js_get (r_credit r) "utilization"); [|eauto].
    destruct (has_key "subscriptions" _) eqn:Hs.
    2:{ apply missing_key_undefined in Hs; [|simpl; tauto].
        cbn [js_spread composite assoc String.eqb Ascii.eqb Bool.eqb] in Hs.
        injection Hs as ->. simpl. eauto. }
    destruct (js_get (r_subscriptions r) "length"); [|eauto].
    cbn [andb] in Hmiss.
    apply missing_key_undefined in Hmiss; [|simpl; tauto].
    cbn [js_spread composite assoc String.eqb Ascii.eqb Bool.eqb] in Hmiss.
    injection Hmiss as ->. simpl. eauto. }
  destruct Hm as [e Hm]. split.
  - unfold narrative_events. rewrite Hm, app_nil_r.
    unfold guardrails_events.
    destruct (credit_account_of w uid); reflexivity.
  - rewrite composite_field.
    cbn [js_spread composite assoc String.eqb Ascii.eqb Bool.eqb].
    unfold narrative_value. rewrite Hm. reflexivity.
Qed.

Lemma missing_branch_silences_narrative_witness :
  issued NarrativeGen
    (events (getDashboardSummary
               (Sample.world (Sample.subscriptions_answer (JObj [])))
               Sample.user ∅)) = false.
Proof.
  refine (proj1 (missing_branch_silences_narrative
                   (Sample.world (Sample.subscriptions_answer (JObj [])))
                   Sample.user ∅ _ _ _)).
  - vm_compute. reflexivity.
  - vm_compute. reflexivity.
Defined.



(** ** Payloads, normalization and the metrics of the two callers *)




(** X11.  A normalized transaction has a merchant, a category and an
    account type that are not empty, the amount of the row it comes from,
    and the UTC day that contains the instant of that row. *)
Theorem normalize_fills_defaults (t : Transaction) :
  n_merchant (normalize t) <> ""
  /\ n_category (normalize t) <> ""
  /\ n_account_type (normalize t) <> ""
  /\ n_amount (normalize t) = tx_amount t
  /\ (n_day (normalize t) * msPerDay <= tx_date t
      < n_day (normalize t) * msPerDay + msPerDay)%Z.
Proof.
  unfold normalize; cbn [n_merchant n_category n_account_type n_amount n_day].
  split; [|split; [|split; [|split; [reflexivity|]]]].
  - destruct (tx_merchant t) as [m|]; [|discriminate].
    destruct (String.eqb_spec m ""); [discriminate | assumption].
  - destruct (tx_category t) as [c|]; [|discriminate].
    destruct (String.eqb_spec c ""); [discriminate | assumption].
  - destruct (tx_account_type t) as [a|], (tx_type t) as [a'|];
      repeat match goal with
      | |- context [String.eqb ?x ""] => destruct (String.eqb_spec x "")
      end; try discriminate; assumption.
  - unfold msPerDay.
    pose proof (Z.mul_div_le (tx_date t) 86400000 eq_refl).
    pose proof (Z.mul_succ_div_gt (tx_date t) 86400000 eq_refl).
    lia.
Qed.

Lemma Math_round_mono x y : (x <= y)%Q -> (Math_round x <= Math_round y)%Z.
Proof.
  intros Hxy. unfold Math_round. apply Qfloor_resp_le.
  apply Qplus_le_compat; [exact Hxy | apply Qle_refl].
Qed.

Lemma third_mono x y : (x <= y)%Q -> (x / 3 <= y / 3)%Q.
Proof.
  intros Hxy. unfold Qdiv. apply Qmult_le_compat_r; [exact Hxy | discriminate].
Qed.

Lemma Math_round_third_nonpos x : (x <= 0)%Q -> (Math_round (x / 3) <= 0)%Z.
Proof.
  intros Hx. change 0%Z with (Math_round (0 / 3)).
  now apply Math_round_mono, third_mono.
Qed.

Lemma normalize_date_le t : (date_of (normalize t) <= date_of t)%Z.
Proof. simpl. apply (normalize_fills_defaults t). Qed.

Lemma since_start_normalize now t :
  MetricsSpec.since_start now (date_of (normalize t)) = true ->
  MetricsSpec.since_start now (date_of t) = true.
Proof.
  unfold MetricsSpec.since_start. rewrite !Z.leb_le.
  pose proof (normalize_date_le t). lia.
Qed.

Lemma inflow_normalize_le now (tx : list Transaction) :
  (MetricsSpec.inflow (MetricsSpec.since_start now) (map normalize tx)
   <= MetricsSpec.inflow (MetricsSpec.since_start now) tx)%Q.
Proof.
  unfold MetricsSpec.inflow. induction tx as [|t tx IH]; [apply Qle_refl|].
  cbn [map List.filter].
  change (amount_of (normalize t)) with (amount_of t).
  destruct (MetricsSpec.since_start now (date_of (normalize t))) eqn:Hn.
  - rewrite (since_start_normalize _ _ Hn). cbn [andb].
    destruct (Qlt_bool 0 (amount_of t)); cbn [map MetricsSpec.Qsum fold_right];
      [|exact IH].
    apply Qplus_le_compat; [apply Qle_refl | exact IH].
  - cbn [andb].
    destruct (MetricsSpec.since_start now (date_of t) && Qlt_bool 0 (amount_of t))
      eqn:Hr; cbn [map MetricsSpec.Qsum fold_right]; [|exact IH].
    apply andb_true_iff in Hr as [_ Hpos]. apply Qlt_bool_lt in Hpos.
    eapply Qle_trans; [exact IH|].
    eapply Qle_trans; [|apply Qplus_le_compat;
                         [apply Qlt_le_weak, Hpos | apply Qle_refl]].
    rewrite Qplus_0_l. apply Qle_refl.
Qed.

Lemma outflow_normalize_ge now (tx : list Transaction) :
  (MetricsSpec.outflow (MetricsSpec.since_start now) tx
   <= MetricsSpec.outflow (MetricsSpec.since_start now) (map normalize tx))%Q.
Proof.
  unfold MetricsSpec.outflow. induction tx as [|t tx IH]; [apply Qle_refl|].
  cbn [map List.filter].
  change (amount_of (normalize t)) with (amount_of t).
  destruct (MetricsSpec.since_start now (date_of (normalize t))) eqn:Hn.
  - rewrite (since_start_normalize _ _ Hn). cbn [andb].
    destruct (Qlt_bool (amount_of t) 0); cbn [map MetricsSpec.Qsum fold_right];
      [|exact IH].
    apply Qplus_le_compat; [apply Qle_refl | exact IH].
  - cbn [andb].
    destruct (MetricsSpec.since_start now (date_of t) && Qlt_bool (amount_of t) 0)
      eqn:Hr; cbn [map MetricsSpec.Qsum fold_right]; [|exact IH].
    apply andb_true_iff in Hr as [_ Hneg]. apply Qlt_bool_lt in Hneg.
    eapply Qle_trans; [|exact IH].
    eapply Qle_trans; [apply Qplus_le_compat;
                        [apply Qlt_le_weak, Hneg | apply Qle_refl]|].
    rewrite Qplus_0_l. apply Qle_refl.
Qed.

Lemma filter_normalize_same now (p : Q -> bool) (tx : list Transaction) :
  Forall (fun t => (tx_date t < window_from now
                    \/ window_from now + msPerDay <= tx_date t)%Z) tx ->
  map amount_of
    (List.filter (fun t => MetricsSpec.since_start now (date_of t) && p (amount_of t))
       (map normalize tx))
  = map amount_of
      (List.filter (fun t => MetricsSpec.since_start now (date_of t) && p (amount_of t))
         tx).
Proof.
  induction 1 as [|t tx Ht _ IH]; [reflexivity|].
  cbn [map List.filter].
  change (amount_of (normalize t)) with (amount_of t).
  assert (Hsame : MetricsSpec.since_start now (date_of (normalize t))
                  = MetricsSpec.since_start now (date_of t)).
  { unfold MetricsSpec.since_start.
    pose proof (normalize_fills_defaults t) as (_ & _ & _ & _ & Hday).
    change (date_of (normalize t)) with (n_day (normalize t) * msPerDay)%Z.
    change (date_of t) with (tx_date t).
    destruct (Z.leb_spec (window_from now) (tx_date t)),
      (Z.leb_spec (window_from now) (n_day (normalize t) * msPerDay));
      try reflexivity; unfold msPerDay in *; lia. }
  rewrite Hsame.
  destruct (MetricsSpec.since_start now (date_of t) && p (amount_of t));
    cbn [map]; now rewrite IH.
Qed.

(** X12.  The summary computes its two metrics on the normalized ledger
    (dates cut to the UTC day), /budgets/untouchable on the rows as read.
    For the same ledger and instant the figures of the summary never exceed
    the ones sent to the forecast provider, and the two agree whenever no
    transaction is dated within the first 24 hours of the window. *)
Theorem summary_metrics_below_forecast_metrics now (tx : list Transaction) :
  ((monthlyIncomeArray now (map normalize tx) <= monthlyIncomeArray now tx)%Z
   /\ (monthlyBaselineSpendArray now (map normalize tx)
       <= monthlyBaselineSpendArray now tx)%Z)
  /\ (Forall (fun t => (tx_date t < window_from now
                        \/ window_from now + msPerDay <= tx_date t)%Z) tx ->
      monthlyIncomeArray now (map normalize tx) = monthlyIncomeArray now tx
      /\ monthlyBaselineSpendArray now (map normalize tx)
         = monthlyBaselineSpendArray now tx).
Proof.
  split; [split|].
  - rewrite !monthlyIncomeArray_sum.
    apply Math_round_mono, third_mono, inflow_normalize_le.
  - rewrite !monthlyBaselineSpendArray_sum.
    pose proof (outflow_normalize_ge now tx) as Hle.
    apply third_mono, Math_round_mono in Hle.
    pose proof (Math_round_third_nonpos _
                  (outflow_nonpos (MetricsSpec.since_start now) (map normalize tx))).
    pose proof (Math_round_third_nonpos _
                  (outflow_nonpos (MetricsSpec.since_start now) tx)).
    lia.
  - intros Hday. unfold monthlyIncomeArray, monthlyBaselineSpendArray.
    cbv zeta.
    pose proof (filter_normalize_same now (Qlt_bool 0) tx Hday) as Hin.
    pose proof (filter_normalize_same now (fun a => Qlt_bool a 0) tx Hday) as Hout.
    unfold MetricsSpec.since_start in Hin, Hout. cbv beta in Hout.
    rewrite Hin, Hout. split; reflexivity.
Qed.

Lemma summary_metrics_below_forecast_metrics_witness :
  monthlyIncomeArray Sample.today (map normalize Sample.ledger)
  = monthlyIncomeArray Sample.today Sample.ledger.
Proof.
  apply (summary_metrics_below_forecast_metrics Sample.today Sample.ledger).
  repeat apply Forall_cons_2; try apply Forall_nil_2; right; vm_compute;
    discriminate.
Defined.

(** The two can differ: an inflow dated three hours after the start of the
    window counts for the forecast and not for the summary. *)
Example summary_metrics_can_be_lower :
  let t := {| tx_date := (window_from Sample.today + 10800000)%Z;
              tx_amount := 300; tx_merchant := None; tx_category := None;
              tx_account_type := None; tx_type := None;
              tx_isRecurring := None; tx_is_recurring := None |} in
  monthlyIncomeArray Sample.today (map normalize [t]) = 0%Z
  /\ monthlyIncomeArray Sample.today [t] = 100%Z.
Proof. vm_compute. split; reflexivity. Qed.

Lemma Qlt_bool_false_le x y : (y <= x)%Q -> Qlt_bool x y = false.
Proof.
  intros Hle. unfold Qlt_bool. apply Qle_bool_iff in Hle. now rewrite Hle.
Qed.

(** X13.  Each metric looks at one sign only and at nothing before the
    window: adding to a ledger, at any position, a transaction that is not an
    inflow (amount at most 0) or is dated before the start of the window
    leaves monthlyIncome as it was, and adding one that is not an outflow
    (amount at least 0) or is dated before the start leaves
    monthlyBaselineSpend as it was. *)
Theorem metrics_ignore_other_sign {A : Type} `{Dated A} (now : Z)
  (before after : list A) (t : A) :
  ((amount_of t <= 0)%Q \/ (date_of t < window_from now)%Z ->
   monthlyIncomeArray now (before ++ t :: after)
   = monthlyIncomeArray now (before ++ after))
  /\ ((0 <= amount_of t)%Q \/ (date_of t < window_from now)%Z ->
      monthlyBaselineSpendArray now (before ++ t :: after)
      = monthlyBaselineSpendArray now (before ++ after)).
Proof.
  unfold monthlyIncomeArray, monthlyBaselineSpendArray. cbv zeta.
  split; intros Hskip; rewrite !List.filter_app; cbn [List.filter].
  - assert (Hno : (window_from now <=? date_of t)%Z && Qlt_bool 0 (amount_of t)
                  = false).
    { destruct Hskip as [Hamt|Hdate].
      - rewrite (Qlt_bool_false_le _ _ Hamt). apply andb_false_r.
      - apply Z.leb_gt in Hdate. now rewrite Hdate. }
    now rewrite Hno.
  - assert (Hno : (window_from now <=? date_of t)%Z && Qlt_bool (amount_of t) 0
                  = false).
    { destruct Hskip as [Hamt|Hdate].
      - rewrite (Qlt_bool_false_le _ _ Hamt). apply andb_false_r.
      - apply Z.leb_gt in Hdate. now rewrite Hdate. }
    now rewrite Hno.
Qed.

Lemma metrics_ignore_other_sign_witness :
  monthlyIncomeArray Sample.today
    ([Sample.entry 19990 1900] ++ Sample.entry 19991 (-1600) :: [Sample.entry 19994 (-60)])
  = monthlyIncomeArray Sample.today
      ([Sample.entry 19990 1900] ++ [Sample.entry 19994 (-60)]).
Proof.
  apply (metrics_ignore_other_sign Sample.today).
  left. vm_compute. discriminate.
Defined.

(** ** More on the forecast and the simulation *)



Lemma explain_payload_malformed balance apr sim :
  nullish (js_get_opt sim "simulation") = true ->
  exists e, explain_payload balance apr sim = Rejected e.
Proof.
  intros Hn. unfold explain_payload. unfold js_get_opt in Hn.
  destruct (js_get sim "simulation") as [x|e]; [|eauto].
  destruct (js_get_nullish x "min_only" Hn) as [e ->]. eauto.
Qed.

(** X15.  When the simulation call answers 2xx with a body that has no
    [simulation] object, the explainer is not called: the operation answers
    200 with [explanation] null and one upstream call made. *)
Theorem malformed_simulation_skips_explainer w req db sim :
  userId_of req <> "" ->
  nullish (req_body req) = false ->
  upstream w (simulate_call (req_body req)) = Fulfilled sim ->
  nullish (js_get_opt sim "simulation") = true ->
  let run := simulateAndExplainCredit w req db in
  events run = [Issue (simulate_call (req_body req));
                Settle (simulate_call (req_body req)) (Fulfilled sim)]
  /\ exists b,
       reply run = Some {| status := 200; body := b |}
       /\ field "explanation" b = Some JNull.
Proof.
  intros Hu Hbody Hup Hn. cbv zeta.
  rewrite serve_simulate, credit_simulate_run by assumption.
  unfold simulate_state. rewrite Hbody, Hup. cbv zeta.
  destruct (explain_payload_malformed (js_get_opt (req_body req) "balance")
              (js_get_opt (req_body req) "apr") sim Hn) as [e ->].
  unfold events, reply; cbn [snd responded log trace response initial
                               Datatypes.app].
  split; [reflexivity|]. eexists. split; [reflexivity|].
  apply answer_fields.
Qed.

Lemma malformed_simulation_skips_explainer_witness :
  exists b,
    reply (simulateAndExplainCredit
             (Sample.world (fun _ => Fulfilled (JObj [])))
             Sample.simulate_request ∅)
    = Some {| status := 200; body := b |}
    /\ field "explanation" b = Some JNull.
Proof.
  refine (proj2 (malformed_simulation_skips_explainer
                   (Sample.world (fun _ => Fulfilled (JObj [])))
                   Sample.simulate_request ∅ (JObj []) _ _ _ _)).
  - discriminate.
  - reflexivity.
  - reflexivity.
  - reflexivity.
Defined.



(** ** Cross-origin requests *)

Lemma prefix_app p o s :
  String.prefix p o = true -> String.prefix p (o ++ s)%string = true.
Proof.
  revert o. induction p as [|c p IH]; intros o.
  - intros _. now destruct (o ++ s)%string.
  - destruct o as [|c' o]; simpl; [discriminate|].
    destruct (Ascii.ascii_dec c c'); [apply IH | discriminate].
Qed.

Lemma prefix_inv p o :
  String.prefix p o = true -> exists rest, o = (p ++ rest)%string.
Proof.
  revert o. induction p as [|c p IH]; intros o.
  - intros _. now exists o.
  - destruct o as [|c' o]; simpl; [discriminate|].
    destruct (Ascii.ascii_dec c c') as [->|]; [|discriminate].
    intros Hp. destruct (IH o Hp) as [rest ->]. now exists rest.
Qed.

(** X17.  The origin check is a prefix test, not an equality: requests
    without an origin pass, and whenever a non-empty origin passes, every
    origin that continues it passes too (so does, for instance,
    http://localhost:3000.example.org); an https origin never passes. *)
Theorem cors_origin_prefix_closed (o s : string) :
  cors_origin None = true
  /\ (o <> "" -> cors_origin (Some o) = true ->
      cors_origin (Some (o ++ s)%string) = true)
  /\ (String.prefix "https://" o = true -> cors_origin (Some o) = false).
Proof.
  split; [reflexivity|]. split.
  - unfold cors_origin. intros Ho.
    destruct (String.eqb_spec o ""); [contradiction|].
    intros Hok.
    destruct (String.eqb_spec (o ++ s)%string ""); [reflexivity|].
    apply orb_true_iff in Hok as [Hok|Hok];
      [apply orb_true_iff in Hok as [Hok|Hok]|];
      rewrite (prefix_app _ _ s Hok); rewrite ?orb_true_r; reflexivity.
  - intros Hs. destruct (prefix_inv _ _ Hs) as [rest ->]. reflexivity.
Qed.

Lemma cors_origin_prefix_closed_witness :
  cors_origin (Some "http://localhost:3000.example.org") = true.
Proof.
  apply (proj1 (proj2 (cors_origin_prefix_closed "http://localhost:3000"
                         ".example.org"))).
  - discriminate.
  - reflexivity.
Defined.

(** ** The default accounts *)

Lemma upsertAccount_existing uid t a s n :
  db_left s = S n ->
  accounts s !! (uid, t) = Some a ->
  upsertAccount uid t s = (Fulfilled a, spend 1 s).
Proof.
  intros Hleft Hacc. unfold upsertAccount, db_op, spend. rewrite Hleft.
  cbn [accounts]. rewrite Hacc. do 2 f_equal. lia.
Qed.

Lemma upsertAccount_new uid t s n :
  db_left s = S n ->
  accounts s !! (uid, t) = None ->
  user_exists uid s = true ->
  upsertAccount uid t s
  = (Fulfilled {| a_id := new_id s; a_userId := uid; a_type := t; a_name := t;
                  a_balance := 0; a_apr := None; a_creditLimit := None |},
     {| users := users s;
        accounts := <[(uid, t) := {| a_id := new_id s; a_userId := uid;
                                     a_type := t; a_name := t; a_balance := 0;
                                     a_apr := None; a_creditLimit := None |}]>
                      (accounts s);
        rows := rows s; session := session s; sent := sent s;
        next_id := S (next_id s); db_left := n |}).
Proof.
  intros Hleft Hacc Hu. unfold upsertAccount, db_op. rewrite Hleft.
  cbn [accounts]. rewrite Hacc.
  unfold user_exists in *. cbn [users]. rewrite Hu. reflexivity.
Qed.

(** What the loop over the account types gives when the database answers
    long enough. *)
Lemma accounts_loop_done uid types m s :
  user_exists uid s = true ->
  length types <= db_left s ->
  exists m' s',
    accounts_loop uid types m s = (Fulfilled m', s')
    /\ (forall t, In t types -> account_known uid m' s' t)
    /\ (forall t, ~ In t types -> m' !! t = m !! t)
    /\ (forall t, account_known uid m s t -> account_known uid m' s' t)
    /\ accounts s ⊆ accounts s'
    /\ (forall k a, accounts s !! k = None -> accounts s' !! k = Some a ->
                    k = (uid, a_name a) /\ In (a_name a) types
                    /\ default_account uid a)
    /\ (users s' = users s /\ rows s' = rows s /\ session s' = session s
        /\ sent s' = sent s /\ db_left s' = db_left s - length types).
Proof.
  revert m s. induction types as [|t types IH]; intros m s Hu Hleft.
  - exists m, s. split; [reflexivity|].
    split; [intros t []|]. split; [reflexivity|]. split; [tauto|].
    split; [reflexivity|]. split; [intros k a Hn Hs; congruence|].
    repeat split. simpl. lia.
  - simpl in Hleft. destruct (db_left s) as [|n] eqn:Hn; [lia|].
    cbn [accounts_loop]. unfold hbind.
    destruct (accounts s !! (uid, t)) as [a|] eqn:Hacc.
    + rewrite (upsertAccount_existing uid t a s n Hn Hacc).
      destruct (IH (<[t := a_id a]> m) (spend 1 s)) as
        (m' & s' & Hrun & Hin & Hout & Hkeep & Hsub & Hnew & Hsame).
      { exact Hu. }
      { cbn [spend db_left]. lia. }
      exists m', s'. split; [exact Hrun|].
      assert (Hknown : account_known uid m' s' t).
      { apply Hkeep. exists a. split; [exact Hacc | apply lookup_insert_eq]. }
      split; [intros t' [<-|Ht']; [exact Hknown | now apply Hin]|].
      split.
      { intros t' Ht'.
        assert (Hd : ~ In t' types) by (intros Hd; apply Ht'; now right).
        rewrite (Hout t' Hd). apply lookup_insert_ne. intros ->.
        apply Ht'. now left. }
      split.
      { intros t' (a' & Ha' & Hm'). destruct (decide (t' = t)) as [->|Hne].
        - exact Hknown.
        - apply Hkeep. exists a'. split; [exact Ha'|].
          now rewrite lookup_insert_ne by congruence. }
      split; [exact Hsub|].
      split.
      { intros k a' Hk Hk'. destruct (Hnew k a' Hk Hk') as (-> & Hin' & Hd).
        split; [reflexivity|]. split; [now right | exact Hd]. }
      destruct Hsame as (-> & -> & -> & -> & ->).
      cbn [spend users rows session sent db_left]. repeat split. simpl. lia.
    + rewrite (upsertAccount_new uid t s n Hn Hacc Hu).
      set (a := {| a_id := new_id s; a_userId := uid; a_type := t; a_name := t;
                   a_balance := 0; a_apr := None; a_creditLimit := None |}).
      set (s1 := {| users := users s; accounts := <[(uid, t) := a]> (accounts s);
                    rows := rows s; session := session s; sent := sent s;
                    next_id := S (next_id s); db_left := n |}).
      destruct (IH (<[t := a_id a]> m) s1) as
        (m' & s' & Hrun & Hin & Hout & Hkeep & Hsub & Hnew & Hsame).
      { exact Hu. }
      { cbn [s1 db_left]. lia. }
      exists m', s'. split; [exact Hrun|].
      assert (Hknown : account_known uid m' s' t).
      { apply Hkeep. exists a. split; [apply lookup_insert_eq | apply lookup_insert_eq]. }
      split; [intros t' [<-|Ht']; [exact Hknown | now apply Hin]|].
      split.
      { intros t' Ht'.
        assert (Hd : ~ In t' types) by (intros Hd; apply Ht'; now right).
        rewrite (Hout t' Hd). apply lookup_insert_ne. intros ->.
        apply Ht'. now left. }
      split.
      { intros t' (a' & Ha' & Hm'). destruct (decide (t' = t)) as [->|Hne].
        - exact Hknown.
        - apply Hkeep. exists a'. split.
          + cbn [s1 accounts]. rewrite lookup_insert_ne by congruence. exact Ha'.
          + now rewrite lookup_insert_ne by congruence. }
      split.
      { etransitivity; [|exact Hsub]. cbn [s1 accounts].
        now apply insert_subseteq. }
      split.
      { intros k a' Hk Hk'. destruct (decide (k = (uid, t))) as [->|Hne].
        - assert (Ha' : accounts s' !! (uid, t) = Some a).
          { eapply lookup_weaken; [|exact Hsub]. apply lookup_insert_eq. }
          rewrite Ha' in Hk'. injection Hk' as <-.
          split; [reflexivity|]. split; [now left|]. repeat split.
        - destruct (Hnew k a') as (-> & Hin' & Hd); [|exact Hk'|].
          + cbn [s1 accounts]. now rewrite lookup_insert_ne by congruence.
          + split; [reflexivity|]. split; [now right | exact Hd]. }
      destruct Hsame as (-> & -> & -> & -> & ->).
      cbn [s1 users rows session sent db_left]. repeat split.
Qed.

Lemma accounts_loop_again uid types (m m0 : gmap string string) s :
  (forall t, In t types -> account_known uid m s t) ->
  length types <= db_left s ->
  exists m',
    accounts_loop uid types m0 s = (Fulfilled m', spend (length types) s)
    /\ (forall t, In t types -> m' !! t = m !! t)
    /\ (forall t, ~ In t types -> m' !! t = m0 !! t).
Proof.
  revert m0 s. induction types as [|t types IH]; intros m0 s Hknown Hleft.
  - exists m0. split.
    + cbn [accounts_loop hret length]. unfold spend. destruct s; cbn.
      do 2 f_equal. lia.
    + split; [intros t []|reflexivity].
  - simpl in Hleft. destruct (db_left s) as [|n] eqn:Hn; [lia|].
    destruct (Hknown t) as (a & Hacc & Hm); [now left|].
    cbn [accounts_loop]. unfold hbind.
    rewrite (upsertAccount_existing uid t a s n Hn Hacc).
    destruct (IH (<[t := a_id a]> m0) (spend 1 s)) as (m' & Hrun & Hin & Hout).
    { intros t' Ht'. destruct (Hknown t') as (a' & Ha' & Hm'); [now right|].
      exists a'. split; assumption. }
    { cbn [spend db_left]. lia. }
    exists m'. split.
    + rewrite Hrun. f_equal. unfold spend; cbn. f_equal. lia.
    + split.
      * intros t' [<-|Ht'].
        -- destruct (in_dec String.string_dec t types) as [Hd|Hd]; [now apply Hin|].
           rewrite (Hout t Hd), Hm. apply lookup_insert_eq.
        -- now apply Hin.
      * intros t' Ht'.
        assert (Hd : ~ In t' types) by (intros Hd; apply Ht'; now right).
        rewrite (Hout t' Hd). apply lookup_insert_ne. intros ->.
        apply Ht'. now left.
Qed.

(** X18.  For an existing user and a database that answers four more
    times, [getOrCreateDefaultAccounts] returns a map with exactly the keys
    income, checking, savings and credit, each giving the id of the user's
    account of that name; accounts that were there are left as they are,
    every account it adds is a default account of that user (type equal to
    name, balance 0, no APR, no limit), and users, transactions and the
    session are not touched. *)
Theorem default_accounts_ensured uid s :
  user_exists uid s = true ->
  4 <= db_left s ->
  exists m s',
    getOrCreateDefaultAccounts uid s = (Fulfilled m, s')
    /\ (forall t, is_Some (m !! t) <-> In t account_types)
    /\ (forall t, In t account_types -> account_known uid m s' t)
    /\ accounts s ⊆ accounts s'
    /\ (forall k a, accounts s !! k = None -> accounts s' !! k = Some a ->
                    k = (uid, a_name a) /\ In (a_name a) account_types
                    /\ default_account uid a)
    /\ (users s' = users s /\ rows s' = rows s /\ session s' = session s
        /\ sent s' = sent s /\ db_left s' = db_left s - 4).
Proof.
  intros Hu Hleft.
  destruct (accounts_loop_done uid account_types ∅ s Hu Hleft)
    as (m & s' & Hrun & Hin & Hout & _ & Hsub & Hnew & Hsame).
  exists m, s'. split; [exact Hrun|]. split.
  - intros t. split.
    + intros Hsome. destruct (in_dec String.string_dec t account_types) as [Hd|Hd];
        [exact Hd|].
      rewrite (Hout t Hd), lookup_empty in Hsome. now destruct Hsome.
    + intros Ht. destruct (Hin t Ht) as (a & _ & ->). eauto.
  - split; [exact Hin|]. split; [exact Hsub|]. split; [exact Hnew | exact Hsame].
Qed.

Lemma default_accounts_ensured_witness :
  exists m s',
    getOrCreateDefaultAccounts "u1" (SampleStore.one_user 4) = (Fulfilled m, s')
    /\ (forall t, In t account_types -> account_known "u1" m s' t).
Proof.
  destruct (default_accounts_ensured "u1" (SampleStore.one_user 4))
    as (m & s' & Hrun & _ & Hknown & _).
  - vm_compute. reflexivity.
  - simpl. lia.
  - exists m, s'. split; assumption.
Defined.

(** X19.  [getOrCreateDefaultAccounts] is idempotent: called again after a
    call that went through, it returns the same map and changes nothing in
    the tables (four more database operations are made). *)
Theorem default_accounts_idempotent uid s m s1 :
  user_exists uid s = true ->
  4 <= db_left s ->
  getOrCreateDefaultAccounts uid s = (Fulfilled m, s1) ->
  4 <= db_left s1 ->
  getOrCreateDefaultAccounts uid s1 = (Fulfilled m, spend 4 s1).
Proof.
  intros Hu Hleft Hrun Hleft1.
  destruct (accounts_loop_done uid account_types ∅ s Hu Hleft)
    as (m' & s' & Hrun' & Hin & Hout & _).
  unfold getOrCreateDefaultAccounts in *. rewrite Hrun in Hrun'.
  injection Hrun' as <- <-.
  destruct (accounts_loop_again uid account_types m ∅ s1 Hin Hleft1)
    as (m2 & Hrun2 & Hin2 & Hout2).
  rewrite Hrun2. do 2 f_equal.
  apply map_eq. intros t.
  destruct (in_dec String.string_dec t account_types) as [Hd|Hd].
  - now apply Hin2.
  - now rewrite (Hout2 t Hd), (Hout t Hd).
Qed.

Lemma default_accounts_idempotent_witness :
  exists m s1,
    getOrCreateDefaultAccounts "u1" (SampleStore.one_user 8) = (Fulfilled m, s1)
    /\ getOrCreateDefaultAccounts "u1" s1 = (Fulfilled m, spend 4 s1).
Proof.
  eexists _, _. split; [vm_compute; reflexivity|].
  apply (default_accounts_idempotent "u1" (SampleStore.one_user 8)).
  - vm_compute. reflexivity.
  - simpl. lia.
  - vm_compute. reflexivity.
  - simpl. lia.
Defined.

Lemma accounts_loop_stopped uid types m s :
  user_exists uid s = true ->
  db_left s < length types ->
  exists s',
    accounts_loop uid types m s = (Rejected db_down, s')
    /\ (forall t, In t (firstn (db_left s) types) ->
                  is_Some (accounts s' !! (uid, t)))
    /\ accounts s ⊆ accounts s'
    /\ db_left s' = 0.
Proof.
  revert m s. induction types as [|t types IH]; intros m s Hu Hleft;
    [simpl in Hleft; lia|].
  simpl in Hleft. cbn [accounts_loop]. unfold hbind.
  destruct (db_left s) as [|n] eqn:Hn.
  - exists s. unfold upsertAccount, db_op. rewrite Hn.
    split; [reflexivity|]. split; [intros t' []|]. split; reflexivity.
  - destruct (accounts s !! (uid, t)) as [a|] eqn:Hacc.
    + rewrite (upsertAccount_existing uid t a s n Hn Hacc).
      destruct (IH (<[t := a_id a]> m) (spend 1 s)) as (s' & Hrun & Hdone & Hsub & Hz).
      { exact Hu. }
      { cbn [spend db_left]. lia. }
      exists s'. split; [exact Hrun|].
      cbn [spend db_left accounts] in *. rewrite Hn in *.
      replace (S n - 1) with n in * by lia.
      split; [|split; assumption].
      intros t' [<-|Ht']; [|now apply Hdone].
      exists a. eapply lookup_weaken; eassumption.
    + rewrite (upsertAccount_new uid t s n Hn Hacc Hu).
      match goal with
      | |- context [accounts_loop uid types ?m1 ?s1] =>
          destruct (IH m1 s1) as (s' & Hrun & Hdone & Hsub & Hz)
      end.
      { exact Hu. }
      { cbn [db_left]. lia. }
      exists s'. split; [exact Hrun|].
      cbn [db_left accounts] in *.
      split; [|split; [|exact Hz]].
      * intros t' [<-|Ht']; [|now apply Hdone].
        eexists. eapply lookup_weaken; [apply lookup_insert_eq | exact Hsub].
      * etransitivity; [|exact Hsub]. now apply insert_subseteq.
Qed.

(** X20.  Nothing is rolled back: if the database stops answering after
    [k] of the four operations, [getOrCreateDefaultAccounts] rejects, and the
    accounts of the first [k] types are there all the same. *)
Theorem default_accounts_not_rolled_back uid s :
  user_exists uid s = true ->
  db_left s < 4 ->
  exists s',
    getOrCreateDefaultAccounts uid s = (Rejected db_down, s')
    /\ (forall t, In t (firstn (db_left s) account_types) ->
                  is_Some (accounts s' !! (uid, t)))
    /\ accounts s ⊆ accounts s'.
Proof.
  intros Hu Hleft.
  destruct (accounts_loop_stopped uid account_types ∅ s Hu Hleft)
    as (s' & Hrun & Hdone & Hsub & _).
  exists s'. split; [exact Hrun|]. split; assumption.
Qed.

Lemma default_accounts_not_rolled_back_witness :
  exists s',
    getOrCreateDefaultAccounts "u1" (SampleStore.one_user 2)
    = (Rejected db_down, s')
    /\ is_Some (accounts s' !! ("u1", "income"))
    /\ is_Some (accounts s' !! ("u1", "checking")).
Proof.
  destruct (default_accounts_not_rolled_back "u1" (SampleStore.one_user 2))
    as (s' & Hrun & Hdone & _).
  - vm_compute. reflexivity.
  - simpl. lia.
  - exists s'. split; [exact Hrun|].
    split; apply Hdone; simpl; tauto.
Defined.

(** ** Sign-up and login *)

Lemma user_exists_lookup e u s :
  users s !! e = Some u -> user_exists (u_id u) s = true.
Proof.
  intros Hu. unfold user_exists. apply existsb_exists.
  exists (e, u). split.
  - apply list_elem_of_In, elem_of_map_to_list. exact Hu.
  - apply String.eqb_refl.
Qed.

(** X21.  Sign-up refuses a request whose email or password is missing or
    empty with a 400 "email/password required", before anything else: no
    database operation is made, no table and no session is changed. *)
Theorem signup_requires_credentials env body s :
  truthy (destructured body "email") = false
  \/ truthy (destructured body "password") = false ->
  exists s',
    signup env body s = (Fulfilled tt, s')
    /\ sent s' = Some {| status := 400;
                         body := error_body "email/password required" |}
    /\ same_data s s'
    /\ db_left s' = db_left s.
Proof.
  intros Hmiss. unfold signup. cbv zeta.
  assert (Hcond : negb (truthy (destructured body "email"))
                  || negb (truthy (destructured body "password")) = true).
  { destruct Hmiss as [-> | ->]; [reflexivity | apply orb_true_r]. }
  rewrite Hcond. eexists. split; [reflexivity|].
  split; [reflexivity|]. repeat split.
Qed.

Lemma signup_requires_credentials_witness :
  exists s',
    signup SampleStore.env (JObj [("email", JStr "a@example.com")])
      (SampleStore.one_user 0) = (Fulfilled tt, s')
    /\ sent s' = Some {| status := 400;
                         body := error_body "email/password required" |}.
Proof.
  destruct (signup_requires_credentials SampleStore.env
              (JObj [("email", JStr "a@example.com")]) (SampleStore.one_user 0))
    as (s' & Hrun & Hsent & _).
  - right. reflexivity.
  - exists s'. split; assumption.
Defined.

(** X22.  Sign-up with an email that is taken answers 400 "email exists"
    after one database read; no user or account is created and the session
    is left as it was. *)
Theorem signup_existing_email env body s e u :
  destructured body "email" = JStr e ->
  truthy (destructured body "email") = true ->
  truthy (destructured body "password") = true ->
  users s !! e = Some u ->
  0 < db_left s ->
  exists s',
    signup env body s = (Fulfilled tt, s')
    /\ sent s' = Some {| status := 400; body := error_body "email exists" |}
    /\ same_data s s'
    /\ next_id s' = next_id s.
Proof.
  intros He Hte Htp Hu Hleft. unfold signup. cbv zeta.
  rewrite Hte, Htp, He. cbn [negb orb findUserByEmail].
  unfold hbind, db_op. destruct (db_left s); [lia|].
  cbn [users]. rewrite Hu.
  eexists. split; [reflexivity|]. split; [reflexivity|]. repeat split.
Qed.

Lemma signup_existing_email_witness :
  exists s',
    signup SampleStore.env
      (JObj [("email", JStr "demo@example.com"); ("password", JStr "x")])
      (SampleStore.one_user 1) = (Fulfilled tt, s')
    /\ sent s' = Some {| status := 400; body := error_body "email exists" |}.
Proof.
  destruct (signup_existing_email SampleStore.env
              (JObj [("email", JStr "demo@example.com"); ("password", JStr "x")])
              (SampleStore.one_user 1) "demo@example.com" SampleStore.demo_user)
    as (s' & Hrun & Hsent & _).
  - reflexivity.
  - reflexivity.
  - reflexivity.
  - reflexivity.
  - simpl. lia.
  - exists s'. split; assumption.
Defined.

Lemma truthy_JStr e : e <> "" -> truthy (JStr e) = true.
Proof. intros He. simpl. destruct (String.eqb_spec e ""); [contradiction|reflexivity]. Qed.

Lemma signup_run env body s e p :
  destructured body "email" = JStr e -> e <> "" ->
  destructured body "password" = JStr p -> p <> "" ->
  users s !! e = None ->
  6 <= db_left s ->
  regenerate_ok env = true -> save_ok env = true ->
  exists s',
    signup env body s = (Fulfilled tt, s')
    /\ sent s' = Some {| status := 200; body := ok_body |}
    /\ session s' = Some (new_id s)
    /\ users s'
       = <[e := {| u_id := new_id s; u_email := e;
                   u_password := Some (bcrypt_hash env p) |}]> (users s)
    /\ (forall t, In t account_types ->
                  is_Some (accounts s' !! (new_id s, t)))
    /\ accounts s ⊆ accounts s'
    /\ rows s' = rows s
    /\ db_left s' = db_left s - 6.
Proof.
  intros He Hne Hp Hnp Hfree Hleft Hreg Hsave. unfold signup. cbv zeta.
  rewrite He, Hp, (truthy_JStr e Hne), (truthy_JStr p Hnp).
  cbn [negb orb findUserByEmail bcryptHash createUser].
  destruct (db_left s) as [|[|n]] eqn:Hn; try lia.
  unfold hbind at 1. unfold db_op at 1. rewrite Hn. cbn [users]. rewrite Hfree.
  unfold hbind at 1. unfold hret at 1.
  unfold hbind at 1. unfold db_op at 1. cbn [db_left users]. rewrite Hfree.
  set (u := {| u_id := _; u_email := e; u_password := _ |}).
  set (s2 := {| users := <[e := u]> _; accounts := _; rows := _; session := _;
                sent := _; next_id := _; db_left := n |}).
  assert (Hid : new_id {| users := users s; accounts := accounts s;
                          rows := rows s; session := session s; sent := sent s;
                          next_id := next_id s; db_left := S n |} = new_id s)
    by reflexivity.
  destruct (accounts_loop_done (u_id u) account_types ∅ s2)
    as (m & s3 & Hrun & Hknown & _ & _ & Hsub & _ & Hsame).
  { apply (user_exists_lookup e). apply lookup_insert_eq. }
  { cbn [s2 db_left length account_types]. lia. }
  unfold hbind at 1. unfold getOrCreateDefaultAccounts. rewrite Hrun.
  unfold establish_session. rewrite Hreg, Hsave.
  destruct Hsame as (Hus & Hrows & _ & _ & Hdb).
  eexists. split; [reflexivity|].
  cbn [hbind set_session answer sent session users accounts rows db_left].
  split; [reflexivity|]. split; [reflexivity|]. split; [exact Hus|].
  split.
  { intros t Ht. destruct (Hknown t Ht) as (a & Ha & _). exists a. exact Ha. }
  split; [exact Hsub|]. split; [exact Hrows|].
  rewrite Hdb. cbn [s2 db_left length account_types]. lia.
Qed.

(** X23.  A sign-up with a new email and a password (both non-empty
    strings), a database that answers six more times and a session store
    that works: the user is created with the bcrypt hash of the password in
    its password field, the four default accounts of the new user
    exist, the session holds the new user's id and the answer is 200
    [{ok: true}]; accounts and transactions that were there are kept. *)
Theorem signup_creates_user env body s e p :
  destructured body "email" = JStr e -> e <> "" ->
  destructured body "password" = JStr p -> p <> "" ->
  users s !! e = None ->
  6 <= db_left s ->
  regenerate_ok env = true -> save_ok env = true ->
  exists s',
    signup env body s = (Fulfilled tt, s')
    /\ sent s' = Some {| status := 200; body := ok_body |}
    /\ session s' = Some (new_id s)
    /\ users s'
       = <[e := {| u_id := new_id s; u_email := e;
                   u_password := Some (bcrypt_hash env p) |}]> (users s)
    /\ (forall t, In t account_types ->
                  is_Some (accounts s' !! (new_id s, t)))
    /\ accounts s ⊆ accounts s'
    /\ rows s' = rows s
    /\ db_left s' = db_left s - 6.
Proof. apply signup_run. Qed.

Lemma signup_creates_user_witness :
  exists s',
    signup SampleStore.env SampleStore.credentials (SampleStore.one_user 6)
    = (Fulfilled tt, s')
    /\ sent s' = Some {| status := 200; body := ok_body |}
    /\ session s' = Some "id0".
Proof.
  destruct (signup_creates_user SampleStore.env SampleStore.credentials
              (SampleStore.one_user 6) "new@example.com" "secret")
    as (s' & Hrun & Hsent & Hsession & _).
  - reflexivity.
  - discriminate.
  - reflexivity.
  - discriminate.
  - vm_compute. reflexivity.
  - simpl. lia.
  - reflexivity.
  - reflexivity.
  - exists s'. split; [exact Hrun|]. split; [exact Hsent | exact Hsession].
Defined.

(** X24.  Login gives one and the same answer, 400 "invalid", when the
    email is unknown, when the user has no password stored and when the
    password does not match; nothing is changed and no session is opened. *)
Theorem login_invalid_is_uniform env body s e :
  destructured body "email" = JStr e ->
  0 < db_left s ->
  users s !! e = None
  \/ (exists u, users s !! e = Some u
                /\ (u_password u = None \/ u_password u = Some ""))
  \/ (exists u h p, users s !! e = Some u
                    /\ u_password u = Some h
                    /\ destructured body "password" = JStr p
                    /\ bcrypt_compare env p h = false) ->
  exists s',
    login env body s = (Fulfilled tt, s')
    /\ sent s' = Some {| status := 400; body := error_body "invalid" |}
    /\ same_data s s'.
Proof.
  intros He Hleft Hcase. unfold login. cbv zeta. rewrite He.
  cbn [findUserByEmail]. unfold hbind at 1. unfold db_op at 1.
  destruct (db_left s); [lia|]. cbn [users].
  destruct Hcase as [Hnone|[(u & Hu & Hpw)|(u & h & p & Hu & Hpw & Hp & Hcmp)]].
  - rewrite Hnone. eexists. split; [reflexivity|]. repeat split.
  - rewrite Hu. destruct Hpw as [-> | ->]; cbn [String.eqb];
      eexists; (split; [reflexivity|]); repeat split.
  - rewrite Hu, Hpw, Hp.
    destruct (String.eqb h ""); [eexists; split; [reflexivity|]; repeat split|].
    cbn [bcryptCompare]. unfold hbind, hret. rewrite Hcmp.
    eexists. split; [reflexivity|]. repeat split.
Qed.

Lemma login_invalid_is_uniform_witness :
  exists s',
    login SampleStore.env
      (JObj [("email", JStr "nobody@example.com"); ("password", JStr "x")])
      (SampleStore.one_user 1) = (Fulfilled tt, s')
    /\ sent s' = Some {| status := 400; body := error_body "invalid" |}.
Proof.
  destruct (login_invalid_is_uniform SampleStore.env
              (JObj [("email", JStr "nobody@example.com"); ("password", JStr "x")])
              (SampleStore.one_user 1) "nobody@example.com")
    as (s' & Hrun & Hsent & _).
  - reflexivity.
  - simpl. lia.
  - left. vm_compute. reflexivity.
  - exists s'. split; assumption.
Defined.

(** X25.  Sign-up, logout, login: after a sign-up that went through, a
    logout closes the session, and a login with the same email and password
    opens it again for the same user and answers 200 [{ok: true}], as long as
    bcrypt accepts a password against its own hash. *)
Theorem signup_logout_login env body s e p :
  destructured body "email" = JStr e -> e <> "" ->
  destructured body "password" = JStr p -> p <> "" ->
  users s !! e = None ->
  7 <= db_left s ->
  regenerate_ok env = true -> save_ok env = true ->
  bcrypt_compare env p (bcrypt_hash env p) = true ->
  bcrypt_hash env p <> "" ->
  exists s1 s2 s3,
    signup env body s = (Fulfilled tt, s1)
    /\ logout s1 = (Fulfilled tt, s2)
    /\ session s2 = None
    /\ login env body s2 = (Fulfilled tt, s3)
    /\ session s3 = Some (new_id s)
    /\ sent s3 = Some {| status := 200; body := ok_body |}.
Proof.
  intros He Hne Hp Hnp Hfree Hleft Hreg Hsave Hcmp Hhash.
  destruct (signup_run env body s e p)
    as (s1 & Hrun & _ & _ & Hus & _ & _ & _ & Hdb); try assumption; [lia|].
  assert (Hlogin : exists s3,
             login env body (snd (logout s1)) = (Fulfilled tt, s3)
             /\ session s3 = Some (new_id s)
             /\ sent s3 = Some {| status := 200; body := ok_body |}).
  { unfold login. cbv zeta. rewrite He, Hp. cbn [findUserByEmail].
    unfold hbind at 1. unfold db_op at 1.
    cbn [logout hbind set_session answer snd db_left users].
    destruct (db_left s1) as [|n] eqn:Hn; [lia|].
    rewrite Hus, lookup_insert_eq. cbn [u_password u_id].
    destruct (String.eqb_spec (bcrypt_hash env p) ""); [contradiction|].
    cbn [bcryptCompare]. unfold hbind at 1. unfold hret at 1. rewrite Hcmp.
    unfold establish_session. rewrite Hreg, Hsave.
    eexists. split; [reflexivity|]. split; reflexivity. }
  destruct Hlogin as (s3 & Hlog & Hsess & Hsent).
  exists s1, (snd (logout s1)), s3. split; [exact Hrun|].
  split; [reflexivity|]. split; [reflexivity|].
  split; [exact Hlog|]. split; assumption.
Qed.

Lemma signup_logout_login_witness :
  exists s1 s2 s3,
    signup SampleStore.env SampleStore.credentials (SampleStore.one_user 7)
    = (Fulfilled tt, s1)
    /\ logout s1 = (Fulfilled tt, s2)
    /\ session s2 = None
    /\ login SampleStore.env SampleStore.credentials s2 = (Fulfilled tt, s3)
    /\ session s3 = Some "id0".
Proof.
  destruct (signup_logout_login SampleStore.env SampleStore.credentials
              (SampleStore.one_user 7) "new@example.com" "secret")
    as (s1 & s2 & s3 & H1 & H2 & H3 & H4 & H5 & _).
  - reflexivity.
  - discriminate.
  - reflexivity.
  - discriminate.
  - vm_compute. reflexivity.
  - simpl. lia.
  - reflexivity.
  - reflexivity.
  - vm_compute. reflexivity.
  - vm_compute. discriminate.
  - exists s1, s2, s3. repeat split; assumption.
Defined.

(** ** The demo seeds *)

Lemma filter_all {A} (p : A -> bool) (l : list A) :
  (forall x, In x l -> p x = true) -> List.filter p l = l.
Proof.
  induction l as [|x l IH]; intros Hall; [reflexivity|].
  simpl. rewrite (Hall x (or_introl eq_refl)). f_equal.
  apply IH. intros y Hy. apply Hall. now right.
Qed.

Lemma filter_none {A} (p : A -> bool) (l : list A) :
  (forall x, In x l -> p x = false) -> List.filter p l = [].
Proof.
  induction l as [|x l IH]; intros Hall; [reflexivity|].
  simpl. rewrite (Hall x (or_introl eq_refl)).
  apply IH. intros y Hy. apply Hall. now right.
Qed.

Lemma seed_rows_seeded uid m d s tx :
  (forall t, In t tx -> account_known uid m s (s_account_type t)) ->
  exists new, seed_rows uid m d tx = Some new
              /\ Forall2 (seeded uid d s) tx new.
Proof.
  induction tx as [|t tx IH]; intros Hknown.
  - exists []. split; [reflexivity | constructor].
  - destruct IH as (new & Hnew & Hall).
    { intros t' Ht'. apply Hknown. now right. }
    destruct (Hknown t (or_introl eq_refl)) as (a & Ha & Hm).
    eexists. cbn [seed_rows]. rewrite Hm, Hnew. split; [reflexivity|].
    constructor; [|exact Hall].
    unfold seeded; cbn. repeat (split; [reflexivity|]). now exists a.
Qed.

Lemma seeded_user uid d s tx new :
  Forall2 (seeded uid d s) tx new -> forall r, In r new -> r_userId r = uid.
Proof.
  induction 1 as [|t r tx new Hr _ IH]; intros r' Hin; [destruct Hin|].
  destruct Hin as [<-|Hin]; [apply Hr | now apply IH].
Qed.

Lemma rows_of_others_app uid (old new : list TxRow) s :
  rows s = List.filter (fun r => negb (String.eqb (r_userId r) uid)) old ++ new ->
  (forall r, In r new -> r_userId r = uid) ->
  rows_of uid s = new
  /\ rows_of_others uid s
     = List.filter (fun r => negb (String.eqb (r_userId r) uid)) old.
Proof.
  intros Hrows Hnew. unfold rows_of, rows_of_others. rewrite Hrows.
  rewrite !List.filter_app. split.
  - rewrite (filter_none _ (List.filter _ old)).
    + simpl. apply filter_all. intros r Hr. rewrite (Hnew r Hr).
      apply String.eqb_refl.
    + intros r Hr. apply List.filter_In in Hr as [_ Hr].
      now apply negb_true_iff in Hr.
  - rewrite (filter_none _ new).
    + rewrite app_nil_r. apply filter_all.
      intros r Hr. now apply List.filter_In in Hr as [_ Hr].
    + intros r Hr. rewrite (Hnew r Hr), String.eqb_refl. reflexivity.
Qed.

Lemma account_known_demo_credit uid m s s' i t :
  accounts s' = demo_credit i <$> accounts s ->
  account_known uid m s t -> account_known uid m s' t.
Proof.
  intros Hacc (a & Ha & Hm). exists (demo_credit i a). split.
  - rewrite Hacc, lookup_fmap, Ha. reflexivity.
  - rewrite Hm. f_equal. unfold demo_credit. now destruct (String.eqb _ _).
Qed.

Lemma demo_credit_twice i a : demo_credit i (demo_credit i a) = demo_credit i a.
Proof.
  unfold demo_credit. destruct (String.eqb (a_id a) i) eqn:Hi; cbn.
  - rewrite Hi. reflexivity.
  - rewrite Hi. reflexivity.
Qed.

Lemma account_id_exists uid m s t i :
  account_known uid m s t -> m !! t = Some i ->
  existsb (fun ka => String.eqb (a_id ka.2) i) (map_to_list (accounts s)) = true.
Proof.
  intros (a & Ha & Hm) Hi. rewrite Hi in Hm. injection Hm as ->.
  apply existsb_exists. exists ((uid, t), a). split.
  - apply list_elem_of_In, elem_of_map_to_list. exact Ha.
  - apply String.eqb_refl.
Qed.

(** The default accounts of an existing user, as the seeds need them. *)
Lemma default_accounts_run uid s :
  user_exists uid s = true ->
  4 <= db_left s ->
  exists m s1,
    getOrCreateDefaultAccounts uid s = (Fulfilled m, s1)
    /\ (forall t, In t account_types -> account_known uid m s1 t)
    /\ (forall t, ~ In t account_types -> m !! t = None)
    /\ accounts s ⊆ accounts s1
    /\ users s1 = users s /\ rows s1 = rows s /\ session s1 = session s
    /\ sent s1 = sent s /\ db_left s1 = db_left s - 4.
Proof.
  intros Hu Hleft.
  destruct (accounts_loop_done uid account_types ∅ s Hu Hleft)
    as (m & s1 & Hrun & Hin & Hout & _ & Hsub & _ & Hsame).
  exists m, s1. split; [exact Hrun|]. split; [exact Hin|]. split.
  - intros t Ht. rewrite (Hout t Ht). apply lookup_empty.
  - split; [exact Hsub|]. exact Hsame.
Qed.

Lemma demo_tx_types t : In t demo_tx -> In (s_account_type t) account_types.
Proof.
  intros Ht. repeat (destruct Ht as [<-|Ht]; [cbn; tauto|]). destruct Ht.
Qed.

Lemma prev_tx_types t : In t prev_tx -> In (s_account_type t) account_types.
Proof.
  intros Ht. repeat (destruct Ht as [<-|Ht]; [cbn; tauto|]). destruct Ht.
Qed.

Lemma authenticated_as uid handler s :
  session s = Some uid -> uid <> "" -> authenticated handler s = handler uid s.
Proof.
  intros Hs Hne. unfold authenticated. rewrite Hs.
  destruct (String.eqb_spec uid ""); [contradiction | reflexivity].
Qed.

(** A run of /debug/seed-demo that finds the database. *)
Lemma seed_demo_run d uid s :
  session s = Some uid -> uid <> "" ->
  user_exists uid s = true ->
  7 <= db_left s ->
  exists m s1 new i,
    getOrCreateDefaultAccounts uid s = (Fulfilled m, s1)
    /\ (forall t, In t account_types -> account_known uid m s1 t)
    /\ (forall t, ~ In t account_types -> m !! t = None)
    /\ accounts s ⊆ accounts s1
    /\ users s1 = users s
    /\ seed_rows uid m d demo_tx = Some new
    /\ Forall2 (seeded uid d s1) demo_tx new
    /\ m !! "credit" = Some i
    /\ seed_demo d s
       = (Fulfilled tt,
          {| users := users s; accounts := demo_credit i <$> accounts s1;
             rows := rows_of_others uid s ++ new; session := Some uid;
             sent := Some {| status := 200;
                             body := seed_done (length demo_tx) |};
             next_id := next_id s1 + length new;
             db_left := db_left s - 7 |}).
Proof.
  intros Hs Hne Hu Hleft.
  destruct (default_accounts_run uid s Hu) as
    (m & s1 & Hrun & Hknown & Hout & Hsub & Hus & Hrows & Hsess & Hsent & Hdb);
    [lia|].
  destruct (seed_rows_seeded uid m d s1 demo_tx) as (new & Hnew & Hall).
  { intros t Ht. apply Hknown, demo_tx_types, Ht. }
  assert (Hc : account_known uid m s1 "credit") by (apply Hknown; cbn; tauto).
  destruct Hc as (a & Ha & Hi).
  exists m, s1, new, (a_id a).
  split; [exact Hrun|]. split; [exact Hknown|]. split; [exact Hout|].
  split; [exact Hsub|]. split; [exact Hus|]. split; [exact Hnew|].
  split; [exact Hall|]. split; [exact Hi|].
  unfold seed_demo. rewrite (authenticated_as uid _ s Hs Hne).
  unfold htry, hbind at 1. rewrite Hrun.
  destruct (db_left s1) as [|[|[|n]]] eqn:Hn; try lia.
  unfold hbind at 1. unfold deleteTransactions, db_op at 1. rewrite Hn.
  unfold hbind at 1. rewrite Hnew. unfold createTransactions, db_op at 1.
  cbn [db_left].
  unfold hbind at 1. rewrite Hi. unfold setCreditDemoValues, db_op at 1.
  cbn [db_left accounts].
  rewrite (account_id_exists uid m s1 "credit" (a_id a)); [|now exists a|exact Hi].
  unfold answer. cbn [users accounts rows session sent next_id db_left].
  unfold rows_of_others. rewrite Hus, Hrows, Hsess, Hs.
  do 3 f_equal. lia.
Qed.

Lemma seeded_demo_credit uid d s s' i t r :
  accounts s' = demo_credit i <$> accounts s ->
  seeded uid d s t r -> seeded uid d s' t r.
Proof.
  intros Hacc (H1 & H2 & H3 & H4 & H5 & H6 & a & Ha & Hid).
  repeat (split; [assumption|]).
  exists (demo_credit i a). split.
  - rewrite Hacc, lookup_fmap, Ha. reflexivity.
  - rewrite Hid. unfold demo_credit. now destruct (String.eqb _ _).
Qed.

(** X26.  /debug/seed-demo for a logged-in, existing user and a database
    that answers seven more times: the answer is 200
    [{ok: true, inserted: 12}]; afterwards the user's transactions are
    exactly the twelve entries of the demo array, in its order, dated in the
    current month and each booked on the user's account named after the
    entry's account type; whatever the user had before is gone, the rows of
    all other users are as they were, and the user's credit account has
    balance 780, limit 2000 and APR 23.99; accounts with another id are left
    as they were. *)
Theorem seed_demo_resets_ledger d uid s :
  session s = Some uid -> uid <> "" ->
  user_exists uid s = true ->
  7 <= db_left s ->
  exists s',
    seed_demo d s = (Fulfilled tt, s')
    /\ sent s' = Some {| status := 200;
                         body := JObj [("ok", JBool true); ("inserted", num 12)] |}
    /\ Forall2 (seeded uid d s') demo_tx (rows_of uid s')
    /\ rows_of_others uid s' = rows_of_others uid s
    /\ users s' = users s
    /\ exists c,
         accounts s' !! (uid, "credit") = Some c
         /\ a_balance c = 780%Q /\ a_creditLimit c = Some (2000 # 1)
         /\ a_apr c = Some (2399 # 100)
         /\ forall k a, accounts s !! k = Some a -> a_id a <> a_id c ->
                        accounts s' !! k = Some a.
Proof.
  intros Hs Hne Hu Hleft.
  destruct (seed_demo_run d uid s Hs Hne Hu Hleft)
    as (m & s1 & new & i & _ & Hknown & _ & Hsub & _ & _ & Hall & Hi & Hrun).
  eexists. split; [exact Hrun|].
  split; [reflexivity|].
  set (s' := {| users := users s; accounts := _; rows := _; session := _;
                sent := _; next_id := _; db_left := _ |}).
  assert (Hacc : accounts s' = demo_credit i <$> accounts s1) by reflexivity.
  destruct (rows_of_others_app uid (rows s) new s' eq_refl
              (seeded_user uid d s1 demo_tx new Hall)) as [Hmine Hothers].
  split.
  { rewrite Hmine. eapply Forall2_impl; [exact Hall|].
    intros t r. apply (seeded_demo_credit uid d s1 s' i t r Hacc). }
  split; [exact Hothers|]. split; [reflexivity|].
  destruct (Hknown "credit") as (a & Ha & Hm); [cbn; tauto|].
  rewrite Hi in Hm. injection Hm as ->.
  exists (demo_credit (a_id a) a).
  split; [rewrite Hacc, lookup_fmap, Ha; reflexivity|].
  assert (Hc : demo_credit (a_id a) a
               = {| a_id := a_id a; a_userId := a_userId a; a_type := a_type a;
                    a_name := a_name a; a_balance := 780;
                    a_apr := Some (2399 # 100);
                    a_creditLimit := Some (2000 # 1) |})
    by (unfold demo_credit; now rewrite String.eqb_refl).
  rewrite Hc. cbn [a_balance a_creditLimit a_apr a_id].
  split; [reflexivity|]. split; [reflexivity|]. split; [reflexivity|].
  intros k b Hb Hid. rewrite Hacc, lookup_fmap.
  rewrite (lookup_weaken _ _ _ _ Hb Hsub). cbn. unfold demo_credit.
  destruct (String.eqb_spec (a_id b) (a_id a)); [contradiction | reflexivity].
Qed.

Lemma seed_demo_resets_ledger_witness :
  exists s',
    seed_demo SampleStore.day_of_month (SampleStore.logged_in 7) = (Fulfilled tt, s')
    /\ Forall2 (seeded "u1" SampleStore.day_of_month s') demo_tx (rows_of "u1" s')
    /\ rows_of_others "u1" s' = rows_of_others "u1" (SampleStore.logged_in 7).
Proof.
  destruct (seed_demo_resets_ledger SampleStore.day_of_month "u1"
              (SampleStore.logged_in 7))
    as (s' & Hrun & _ & Hmine & Hothers & _).
  - reflexivity.
  - discriminate.
  - vm_compute. reflexivity.
  - simpl. lia.
  - exists s'. split; [exact Hrun|]. split; assumption.
Defined.

Lemma seed_rows_agree uid m m' d tx :
  (forall t, In t tx -> m' !! s_account_type t = m !! s_account_type t) ->
  seed_rows uid m' d tx = seed_rows uid m d tx.
Proof.
  induction tx as [|t tx IH]; intros Hsame; [reflexivity|].
  cbn [seed_rows]. rewrite (Hsame t (or_introl eq_refl)), IH; [reflexivity|].
  intros t' Ht'. apply Hsame. now right.
Qed.

Lemma user_exists_users uid s s' :
  users s' = users s -> user_exists uid s' = user_exists uid s.
Proof. intros Hus. unfold user_exists. now rewrite Hus. Qed.

(** X27.  /debug/seed-demo is idempotent within a month: a second run
    after a run that went through answers the same and leaves users,
    accounts, transactions and the session exactly as the first run left
    them. *)
Theorem seed_demo_idempotent d uid s s1 :
  session s = Some uid -> uid <> "" ->
  user_exists uid s = true ->
  7 <= db_left s ->
  seed_demo d s = (Fulfilled tt, s1) ->
  7 <= db_left s1 ->
  exists s2,
    seed_demo d s1 = (Fulfilled tt, s2)
    /\ same_data s1 s2
    /\ sent s2 = sent s1.
Proof.
  intros Hs Hne Hu Hleft Hfirst Hleft1.
  destruct (seed_demo_run d uid s Hs Hne Hu Hleft)
    as (m & s0 & new & i & _ & Hknown & Hout & _ & Hus & Hnew & Hall & Hi & Hrun).
  rewrite Hrun in Hfirst. injection Hfirst as <-.
  set (s1 := {| users := users s; accounts := _; rows := _; session := _;
                sent := _; next_id := _; db_left := _ |}) in *.
  assert (Hacc : accounts s1 = demo_credit i <$> accounts s0) by reflexivity.
  assert (Hu1 : user_exists uid s1 = true)
    by (rewrite <- Hu; now apply user_exists_users).
  destruct (seed_demo_run d uid s1 eq_refl Hne Hu1 Hleft1)
    as (m' & s0' & new' & i' & Hrun0 & _ & Hout' & _ & Hus'
        & Hnew' & _ & Hi' & Hrun').
  assert (Hknown1 : forall t, In t account_types -> account_known uid m s1 t).
  { intros t Ht. apply (account_known_demo_credit uid m s0 s1 i t Hacc).
    now apply Hknown. }
  destruct (accounts_loop_again uid account_types m ∅ s1 Hknown1)
    as (m2 & Hagain & Hin2 & Hout2); [cbn [length account_types]; lia|].
  unfold getOrCreateDefaultAccounts in Hrun0. rewrite Hagain in Hrun0.
  injection Hrun0 as -> <-.
  assert (Hm : m' = m).
  { apply map_eq. intros t.
    destruct (in_dec String.string_dec t account_types) as [Hd|Hd].
    - now apply Hin2.
    - now rewrite (Hout' t Hd), (Hout t Hd). }
  subst m'. rewrite Hnew in Hnew'. injection Hnew' as <-.
  rewrite Hi in Hi'. injection Hi' as <-.
  eexists. split; [exact Hrun'|].
  destruct (rows_of_others_app uid (rows s) new s1 eq_refl
              (seeded_user uid d s0 demo_tx new Hall)) as [_ Hothers].
  split; [|reflexivity].
  unfold same_data. cbn [users accounts rows session spend].
  split; [reflexivity|]. split.
  { change (demo_credit i <$> (demo_credit i <$> accounts s0)
            = demo_credit i <$> accounts s0).
    rewrite <- map_fmap_compose. apply map_fmap_ext.
    intros k a _. apply demo_credit_twice. }
  split; [|reflexivity].
  change (rows_of_others uid s1 ++ new = rows_of_others uid s ++ new).
  rewrite Hothers. reflexivity.
Qed.

Lemma seed_demo_idempotent_witness :
  exists s2,
    seed_demo SampleStore.day_of_month
      (snd (seed_demo SampleStore.day_of_month (SampleStore.logged_in 14)))
    = (Fulfilled tt, s2)
    /\ same_data
         (snd (seed_demo SampleStore.day_of_month (SampleStore.logged_in 14))) s2.
Proof.
  destruct (seed_demo_idempotent SampleStore.day_of_month "u1"
              (SampleStore.logged_in 14)
              (snd (seed_demo SampleStore.day_of_month (SampleStore.logged_in 14)))
              eq_refl)
    as (s2 & Hrun & Hsame & _).
  - discriminate.
  - vm_compute. reflexivity.
  - simpl. lia.
  - vm_compute. reflexivity.
  - vm_compute. lia.
  - exists s2. split; assumption.
Defined.

(** X28.  /debug/seed-more for a logged-in, existing user and a database
    that answers five more times: the answer is 200
    [{ok: true, inserted: 12}] and the twelve entries of last month's array
    are added behind the transactions that were there, each booked on the
    user's account named after the entry's account type.  Nothing is
    deleted, so unlike /debug/seed-demo every run makes the table twelve
    rows longer. *)
Theorem seed_more_appends d uid s :
  session s = Some uid -> uid <> "" ->
  user_exists uid s = true ->
  5 <= db_left s ->
  exists s' new,
    seed_more d s = (Fulfilled tt, s')
    /\ sent s' = Some {| status := 200;
                         body := JObj [("ok", JBool true); ("inserted", num 12)] |}
    /\ rows s' = rows s ++ new
    /\ Forall2 (seeded uid d s') prev_tx new
    /\ length (rows s') = length (rows s) + 12
    /\ users s' = users s
    /\ accounts s ⊆ accounts s'.
Proof.
  intros Hs Hne Hu Hleft.
  destruct (default_accounts_run uid s Hu) as
    (m & s1 & Hrun & Hknown & _ & Hsub & Hus & Hrows & Hsess & Hsent & Hdb);
    [lia|].
  destruct (seed_rows_seeded uid m d s1 prev_tx) as (new & Hnew & Hall).
  { intros t Ht. apply Hknown, prev_tx_types, Ht. }
  unfold seed_more. rewrite (authenticated_as uid _ s Hs Hne).
  unfold htry, hbind at 1. rewrite Hrun.
  destruct (db_left s1) as [|n] eqn:Hn; try lia.
  unfold hbind at 1. rewrite Hnew. unfold createTransactions, db_op at 1.
  rewrite Hn. unfold answer.
  cbn [users accounts rows session sent next_id db_left].
  eexists _, new. split; [reflexivity|].
  cbn [users accounts rows session sent next_id db_left].
  split; [reflexivity|]. split; [now rewrite Hrows|]. split; [exact Hall|].
  split.
  { rewrite length_app, Hrows, <- (Forall2_length _ _ _ Hall). reflexivity. }
  split; [exact Hus | exact Hsub].
Qed.

Lemma seed_more_appends_witness :
  exists s',
    seed_more SampleStore.day_of_month (SampleStore.logged_in 5) = (Fulfilled tt, s')
    /\ length (rows s') = 14.
Proof.
  destruct (seed_more_appends SampleStore.day_of_month "u1"
              (SampleStore.logged_in 5))
    as (s' & new & Hrun & _ & _ & _ & Hlen & _).
  - reflexivity.
  - discriminate.
  - vm_compute. reflexivity.
  - simpl. lia.
  - exists s'. split; [exact Hrun | exact Hlen].
Defined.

(** X29.  /debug/seed-demo is not atomic.  When the database stops
    answering after the accounts were ensured and the user's transactions
    were deleted (five operations), the handler catches the failure and
    answers 500 with [ok: false] and the error as text; the deletion is not
    undone: the user's transactions are gone, nothing is inserted, and the
    table holds the rows of the other users only. *)
Theorem seed_demo_not_atomic d uid s :
  session s = Some uid -> uid <> "" ->
  user_exists uid s = true ->
  db_left s = 5 ->
  exists s',
    seed_demo d s = (Fulfilled tt, s')
    /\ sent s'
       = Some {| status := 500;
                 body := JObj [("ok", JBool false);
                               ("error", JStr "PrismaClientInitializationError: Can't reach database server")] |}
    /\ rows s' = rows_of_others uid s
    /\ rows_of uid s' = [].
Proof.
  intros Hs Hne Hu Hleft.
  destruct (default_accounts_run uid s Hu) as
    (m & s1 & Hrun & Hknown & _ & _ & Hus & Hrows & Hsess & Hsent & Hdb);
    [lia|].
  destruct (seed_rows_seeded uid m d s1 demo_tx) as (new & Hnew & Hall).
  { intros t Ht. apply Hknown, demo_tx_types, Ht. }
  unfold seed_demo. rewrite (authenticated_as uid _ s Hs Hne).
  unfold htry, hbind at 1. rewrite Hrun.
  destruct (db_left s1) as [|[|n]] eqn:Hn; try lia.
  unfold hbind at 1. unfold deleteTransactions, db_op at 1. rewrite Hn.
  unfold hbind at 1. rewrite Hnew. unfold createTransactions, db_op at 1.
  cbn [db_left]. unfold answer.
  cbn [users accounts rows session sent next_id db_left].
  eexists. split; [reflexivity|].
  cbn [users accounts rows session sent next_id db_left].
  split; [reflexivity|].
  unfold rows_of_others. rewrite Hrows. split; [reflexivity|].
  unfold rows_of. cbn [rows]. apply filter_none.
  intros r Hr. apply List.filter_In in Hr as [_ Hr].
  now apply negb_true_iff in Hr.
Qed.

Lemma seed_demo_not_atomic_witness :
  exists s',
    seed_demo SampleStore.day_of_month (SampleStore.logged_in 5) = (Fulfilled tt, s')
    /\ rows_of "u1" (SampleStore.logged_in 5) <> []
    /\ rows_of "u1" s' = [].
Proof.
  destruct (seed_demo_not_atomic SampleStore.day_of_month "u1"
              (SampleStore.logged_in 5))
    as (s' & Hrun & _ & _ & Hgone).
  - reflexivity.
  - discriminate.
  - vm_compute. reflexivity.
  - reflexivity.
  - exists s'. split; [exact Hrun|]. split; [discriminate | exact Hgone].
Defined.

(** ** Sign-up that breaks off *)

Lemma accounts_loop_stopped_frame uid types m s :
  user_exists uid s = true ->
  db_left s < length types ->
  exists s',
    accounts_loop uid types m s = (Rejected db_down, s')
    /\ users s' = users s /\ rows s' = rows s
    /\ session s' = session s /\ sent s' = sent s.
Proof.
  revert m s. induction types as [|t types IH]; intros m s Hu Hleft;
    [simpl in Hleft; lia|].
  simpl in Hleft. cbn [accounts_loop]. unfold hbind.
  destruct (db_left s) as [|n] eqn:Hn.
  - exists s. unfold upsertAccount, db_op. rewrite Hn.
    split; [reflexivity|]. repeat split.
  - destruct (accounts s !! (uid, t)) as [a|] eqn:Hacc.
    + rewrite (upsertAccount_existing uid t a s n Hn Hacc).
      destruct (IH (<[t := a_id a]> m) (spend 1 s)) as (s' & Hrun & Hsame).
      { exact Hu. }
      { cbn [spend db_left]. lia. }
      exists s'. split; [exact Hrun | exact Hsame].
    + rewrite (upsertAccount_new uid t s n Hn Hacc Hu).
      match goal with
      | |- context [accounts_loop uid types ?m1 ?s1] =>
          destruct (IH m1 s1) as (s' & Hrun & Hsame)
      end.
      { exact Hu. }
      { cbn [db_left]. lia. }
      exists s'. split; [exact Hrun | exact Hsame].
Qed.

(** X30.  Sign-up is not atomic and does not catch: when the database
    stops answering after the user row was written and before the four
    default accounts are there, the handler's promise rejects with the
    database error, no answer is written and no session is set, and the new
    user stays in the table. *)
Theorem signup_not_atomic env body s e p :
  destructured body "email" = JStr e -> e <> "" ->
  destructured body "password" = JStr p -> p <> "" ->
  users s !! e = None ->
  2 <= db_left s < 6 ->
  exists s',
    signup env body s = (Rejected db_down, s')
    /\ sent s' = sent s
    /\ session s' = session s
    /\ users s' !! e = Some {| u_id := new_id s; u_email := e;
                               u_password := Some (bcrypt_hash env p) |}.
Proof.
  intros He Hne Hp Hnp Hfree Hleft. unfold signup. cbv zeta.
  rewrite He, Hp, (truthy_JStr e Hne), (truthy_JStr p Hnp).
  cbn [negb orb findUserByEmail bcryptHash createUser].
  destruct (db_left s) as [|[|n]] eqn:Hn; try lia.
  unfold hbind at 1. unfold db_op at 1. rewrite Hn. cbn [users]. rewrite Hfree.
  unfold hbind at 1. unfold hret at 1.
  unfold hbind at 1. unfold db_op at 1. cbn [db_left users]. rewrite Hfree.
  set (u := {| u_id := _; u_email := e; u_password := _ |}).
  set (s2 := {| users := <[e := u]> _; accounts := _; rows := _; session := _;
                sent := _; next_id := _; db_left := n |}).
  destruct (accounts_loop_stopped_frame (u_id u) account_types ∅ s2)
    as (s3 & Hrun & Hus & _ & Hsess & Hsent).
  { apply (user_exists_lookup e). apply lookup_insert_eq. }
  { cbn [s2 db_left length account_types]. lia. }
  unfold hbind at 1. unfold getOrCreateDefaultAccounts. rewrite Hrun.
  exists s3. split; [reflexivity|]. split; [exact Hsent|].
  split; [exact Hsess|].
  rewrite Hus. apply lookup_insert_eq.
Qed.

Lemma signup_not_atomic_witness :
  exists s',
    signup SampleStore.env
      (JObj [("email", JStr "new@example.com"); ("password", JStr "secret")])
      (SampleStore.one_user 3)
    = (Rejected db_down, s')
    /\ is_Some (users s' !! "new@example.com").
Proof.
  destruct (signup_not_atomic SampleStore.env
              (JObj [("email", JStr "new@example.com"); ("password", JStr "secret")])
              (SampleStore.one_user 3) "new@example.com" "secret")
    as (s' & Hrun & _ & _ & Hu).
  - reflexivity.
  - discriminate.
  - reflexivity.
  - discriminate.
  - vm_compute. reflexivity.
  - simpl. lia.
  - exists s'. split; [exact Hrun|]. rewrite Hu. eauto.
Defined.
